(** * gml2html: the b3dm payload extractor and the tileset walker

    A shallow embedding of the three scripts of the repository
    ([extract_shibuya_scramble.py], [extract_b3dm_to_glb.py], [g2h.py])
    and the properties their specification states about them.

    Python values are modelled as follows.
    - [bytes] objects are lists of [byte]; Python integers that are
      lengths, offsets and unsigned header fields are [N] (they are never
      negative, so the negative-index rule of slicing never applies, and
      they never wrap: Python integers are unbounded).
    - An exception that leaves a function is a [Raise] result; one that
      nothing catches ends the walk in a [Crash].
    - [pathlib.Path] values are lists of path components; the file system
      is a finite map from paths to file contents.  Every path that exists
      is a regular file, and reading or writing one does not fail.
    - The numbers of a manifest are kept abstract, with Python's [<] on
      them; doubles and rationals are the two instances used in examples.
    - A manifest is taken to be well shaped: its tiles are objects
      whose bounding volume and content, when present, are objects, and
      whose regions are lists of numbers.
    - Standard output and the interpreter's recursion limit are not
      modelled. *)

From Stdlib Require Import NArith QArith Lia List Strings.Ascii Strings.String Strings.Byte.
From Stdlib Require Import Floats.PrimFloat.
From stdpp Require Import base option strings list gmap.

Set Warnings "-inexact-float,-clear-no-such-hyp".
Local Open Scope N_scope.

(** ** Exceptions and results *)

(** The three [ValueError]s of the container parser.  The message texts
    differ between [g2h.py] and the two extraction scripts; the
    constructor stands for the [raise] statement, in source order. *)
Inductive failure : Set :=
| TooSmall          (* "b3dm too small" / "b3dm file too small to be valid." *)
| BadMagic          (* "not b3dm" / "This is not a b3dm file (magic mismatch)." *)
| OffsetOutOfRange. (* "Calculated GLB offset beyond file length." *)

Inductive exn : Set :=
| ValueError (k : failure)
| struct_error          (* struct.unpack_from on a buffer that is too short *)
| IndexError            (* region[i] on a list that is too short *)
| SameFileError         (* shutil.copy2(src, dst) with src and dst the same file *)
| FileNotFoundError.    (* read_bytes() of a path that does not exist *)

Inductive result (A : Type) : Type :=
| Ok (a : A)
| Raise (e : exn).
Arguments Ok {A} a.
Arguments Raise {A} e.

#[global] Instance result_ret : MRet result := fun A a => Ok a.
#[global] Instance result_bind : MBind result := fun A B f m =>
  match m with
  | Ok a => f a
  | Raise e => Raise e
  end.

#[global] Instance failure_eq_dec : EqDecision failure.
Proof. solve_decision. Defined.
#[global] Instance exn_eq_dec : EqDecision exn.
Proof. solve_decision. Defined.

(** ** Byte strings *)

Abbreviation bytes := (list byte).

#[global] Instance byte_eq_dec : EqDecision byte := Byte.byte_eq_dec.

(** [len(data)] *)
Definition len (data : bytes) : N := N.of_nat (length data).

(** [data[a:]] for [0 <= a]; recursion is on the list, so that the
    function runs on header fields as large as [2^32 - 1]. *)
Fixpoint slice_from (data : bytes) (a : N) : bytes :=
  match data with
  | [] => []
  | _ :: rest => if a =? 0 then data else slice_from rest (N.pred a)
  end.

(** [data[:b]] for [0 <= b]. *)
Fixpoint slice_to (data : bytes) (b : N) : bytes :=
  match data with
  | [] => []
  | x :: rest => if b =? 0 then [] else x :: slice_to rest (N.pred b)
  end.

(** [data[a:b]] for [0 <= a] and [0 <= b]: both bounds are clamped to
    [len(data)], and the slice is empty when [b <= a] (the subtraction
    on [N] is truncated). *)
Definition slice (data : bytes) (a b : N) : bytes :=
  slice_to (slice_from data a) (b - a).

(** [struct.unpack_from('<I', data, offset)[0]]: the four bytes at
    [offset], least significant first; [struct.error] when fewer than
    four bytes are left. *)
Definition unpack_from_I (data : bytes) (offset : N) : result N :=
  match slice data offset (offset + 4) with
  | [b0; b1; b2; b3] =>
      Ok (Byte.to_N b0 + 2 ^ 8 * Byte.to_N b1
          + 2 ^ 16 * Byte.to_N b2 + 2 ^ 24 * Byte.to_N b3)
  | _ => Raise struct_error
  end.

(** [bs.decode('ascii', errors='ignore')]: bytes above 127 are dropped,
    the others become the characters of the same code. *)
Definition decode_ascii_ignore (bs : bytes) : string :=
  string_of_list_ascii
    (map ascii_of_byte (List.filter (fun b => Byte.to_N b <? 128) bs)).

(** The header magic [b"b3dm"]. *)
Definition b3dm_magic : bytes := [x62; x33; x64; x6d].

(** ** Paths and the file system *)

(** A resolved [pathlib.Path]: the components below the root. *)
Abbreviation path := (list string).

(** [p.name]: the final component. *)
Definition path_name (p : path) : string := List.last p ""%string.

(** [base / name] for a [name] that is a single component. *)
Definition path_join (base : path) (name : string) : path := base ++ [name].

(** [name.rfind('.')], [None] for Python's [-1]. *)
Fixpoint rfind_dot (name : string) : option nat :=
  match name with
  | EmptyString => None
  | String c rest =>
      match rfind_dot rest with
      | Some i => Some (S i)
      | None => if Ascii.eqb c "."%char then Some 0%nat else None
      end
  end.

(** The split point that [PurePath.suffix] and [PurePath.stem] share
    (Python 3.8 to 3.13): the last dot of the name, unless it is the
    first or the last character. *)
Definition suffix_index (name : string) : option nat :=
  match rfind_dot name with
  | Some i =>
      if (Nat.ltb 0 i && Nat.ltb i (String.length name - 1))%bool
      then Some i else None
  | None => None
  end.

(** [p.suffix] *)
Definition path_suffix (p : path) : string :=
  let name := path_name p in
  match suffix_index name with
  | Some i => substring i (String.length name - i) name
  | None => ""%string
  end.

(** [p.stem] *)
Definition path_stem (p : path) : string :=
  let name := path_name p in
  match suffix_index name with
  | Some i => substring 0 i name
  | None => name
  end.

(** [c.lower()] on an ASCII letter. *)
Definition ascii_lower (c : ascii) : ascii :=
  let n := N_of_ascii c in
  if (65 <=? n) && (n <=? 90) then ascii_of_N (n + 32) else c.

(** [s.lower()]; file names are taken to be ASCII. *)
Fixpoint lower (s : string) : string :=
  match s with
  | EmptyString => EmptyString
  | String c rest => String (ascii_lower c) (lower rest)
  end.

(** The file system: every path that exists is a regular file that can
    be read and written. *)
Abbreviation file_system := (gmap path bytes).

(** [shutil.copy2(src, dst)] *)
Definition copy2 (files : file_system) (src dst : path) : result file_system :=
  if decide (src = dst) then Raise SameFileError else
  match files !! src with
  | Some data => Ok (<[dst := data]> files)
  | None => Raise FileNotFoundError
  end.

(** ** Tilesets *)

(** [tile["content"]]: the keys the walker looks at.  An object with
    neither key stands for the empty object as well: both have no URI. *)
Record content_ref : Type := Content {
  uri : option string;
  url : option string
}.

(** [tile["boundingVolume"]]: only its ["region"] entry is looked at;
    a box or sphere volume has none. *)
Record bounding_volume (num : Type) : Type := BoundingVolume {
  region : option (list num)
}.
Arguments BoundingVolume {num} region.
Arguments region {num} b.

(** A tile object of a [tileset.json]; a missing key is [None], a missing
    ["children"] list is [[]]. *)
#[warnings="-register-all"]
Inductive tile (num : Type) : Type :=
| Tile (boundingVolume : option (bounding_volume num))
       (content : option content_ref)
       (children : list (tile num)).
Arguments Tile {num} boundingVolume content children.

Definition boundingVolume {num} (t : tile num) : option (bounding_volume num) :=
  match t with Tile bv _ _ => bv end.
Definition content {num} (t : tile num) : option content_ref :=
  match t with Tile _ c _ => c end.
Definition children {num} (t : tile num) : list (tile num) :=
  match t with Tile _ _ cs => cs end.

(** A parsed [tileset.json]: [root] is [None] when the key is missing or
    its value is falsy, [tiles] is [None] when the key is missing. *)
Record tileset (num : Type) : Type := Tileset {
  root : option (tile num);
  tiles : option (list (tile num))
}.
Arguments Tileset {num} root tiles.
Arguments root {num} t.
Arguments tiles {num} t.

(** One element of [tileset_paths]: [ts_path.parent] and what
    [json.loads(ts_path.read_text())] gives, [None] when it raises.  The
    walk writes only files whose suffix is [.glb] or [.gltf], so the
    manifests do not change while it runs. *)
Definition manifest (num : Type) : Type := path * option (tileset num).

(** Truth value of an optional string: [None] and [""] are falsy. *)
Definition truthy (o : option string) : bool :=
  match o with
  | Some s => negb (String.eqb s "")
  | None => false
  end.

(** [a or b] on optional strings. *)
Definition py_or (a b : option string) : option string :=
  if truthy a then a else b.

(** ** The state of a walk *)

(** What was done with a source file, in the order of the run: the three
    places where the scripts print. *)
Inductive event : Type :=
| Extracted (src out_path : path) (glb : bytes)  (* read_bytes, parse, write_bytes *)
| Failed (src : path) (e : exn)                  (* the [except] branch *)
| Copied (src dst : path).                       (* shutil.copy2 *)

Definition source (ev : event) : path :=
  match ev with
  | Extracted src _ _ => src
  | Failed src _ => src
  | Copied src _ => src
  end.

(** The events after which [extracted] is incremented. *)
Definition succeeded (ev : event) : bool :=
  match ev with
  | Extracted _ _ _ => true
  | Failed _ _ => false
  | Copied _ _ => true
  end.

(** Where an event wrote, if it did. *)
Definition written_to (ev : event) : option path :=
  match ev with
  | Extracted _ out_path _ => Some out_path
  | Failed _ _ => None
  | Copied _ dst => Some dst
  end.

Record state : Type := State {
  files : file_system;          (* the disk *)
  processed_files : gset path;  (* [processed_files] / [processed] *)
  extracted : nat;              (* [extracted] *)
  log : list event              (* newest event last *)
}.

(** A run either finishes or is ended by an exception nothing catches;
    the disk keeps what was written until then. *)
Inductive outcome : Type :=
| Done (st : state)
| Crash (e : exn) (st : state).

Definition and_then (o : outcome) (k : state → outcome) : outcome :=
  match o with
  | Done st => k st
  | Crash e st => Crash e st
  end.

Definition final (o : outcome) : state :=
  match o with
  | Done st => st
  | Crash _ st => st
  end.

(** [for x in l: body(x)] *)
Definition for_each {A : Type} (body : A → state → outcome)
  : list A → state → outcome :=
  fix loop (l : list A) (st : state) : outcome :=
    match l with
    | [] => Done st
    | x :: rest => and_then (body x st) (loop rest)
    end.

(** What the scripts take from their surroundings: the numbers of the
    manifests with Python's [<] on them ([a > b] is [b < a]), the two
    module constants, and [(base_path / uri).resolve()]. *)
Class Env (num : Type) : Type := {
  lt : num → num → bool;
  TARGET_BBOX : num * num * num * num;
  OUT_DIR : path;
  resolve : path → string → path
}.

Definition gt {num} `{Env num} (a b : num) : bool := lt b a.

(** [region[i]] *)
Definition index {num} (region : list num) (i : nat) : result num :=
  match region !! i with
  | Some x => Ok x
  | None => Raise IndexError
  end.

(** The state when a walk starts: nothing processed, nothing counted. *)
Definition initial (disk : file_system) : state :=
  State disk ∅ 0 [].

(** [processed_files.add(p)] *)
Definition add_processed (p : path) (st : state) : state :=
  State (files st) ({[p]} ∪ processed_files st) (extracted st) (log st).

(** ** extract_shibuya_scramble.py *)

Module extract_shibuya_scramble.
Section script.
Context {num : Type} `{Env num}.

(** Lines 42-50. *)
Definition bbox_intersect (region : list num)
  (target_bbox : num * num * num * num) : result bool :=
  west ← index region 0;
  south ← index region 1;
  east ← index region 2;
  north ← index region 3;
  let '(lon_min, lat_min, lon_max, lat_max) := target_bbox in
  if lt lon_max west || gt lon_min east then Ok false else
  if lt lat_max south || gt lat_min north then Ok false else
  Ok true.

(** Lines 52-67. *)
Definition extract_b3dm_to_glb_bytes (data : bytes) : result bytes :=
  if len data <? 28 then Raise (ValueError TooSmall) else
  let magic := decode_ascii_ignore (slice data 0 4) in
  if negb (String.eqb magic "b3dm") then Raise (ValueError BadMagic) else
  version ← unpack_from_I data 4;
  byteLength ← unpack_from_I data 8;
  ftJsonLen ← unpack_from_I data 12;
  ftBinLen ← unpack_from_I data 16;
  btJsonLen ← unpack_from_I data 20;
  btBinLen ← unpack_from_I data 24;
  let glb_offset := 28 + ftJsonLen + ftBinLen + btJsonLen + btBinLen in
  let end_ :=
    if (byteLength <=? len data) && (glb_offset <? byteLength)
    then byteLength else len data in
  Ok (slice data glb_offset end_).

(** Lines 159-163 of [process_tile]: the flag [intersects]. *)
Definition tile_intersects (t : tile num) : result bool :=
  let region :=
    match boundingVolume t with
    | Some bv => region bv
    | None => None                (* [{}.get("region")] *)
    end in
  match region with
  | None | Some [] => Ok true     (* [None] and [[]] are falsy *)
  | Some region => bbox_intersect region TARGET_BBOX
  end.

(** Lines 177-185: the [try] block on a [.b3dm] file, entered after the
    path was added to [processed_files]. *)
Definition extract_file (absolute : path) (st : state) : state :=
  let attempt :=
    data ← match files st !! absolute with
           | Some data => Ok data
           | None => Raise FileNotFoundError
           end;
    extract_b3dm_to_glb_bytes data in
  match attempt with
  | Ok glb_bytes =>
      let out_path := path_join OUT_DIR (path_stem absolute ++ ".glb") in
      State (<[out_path := glb_bytes]> (files st)) (processed_files st)
            (S (extracted st))
            (log st ++ [Extracted absolute out_path glb_bytes])
  | Raise e =>
      State (files st) (processed_files st) (extracted st)
            (log st ++ [Failed absolute e])
  end.

(** Lines 189-192: the copy of a [.glb] or [.gltf] file, entered after
    the path was added to [processed_files]; nothing catches what
    [shutil.copy2] raises. *)
Definition copy_file (absolute : path) (st : state) : outcome :=
  let dst := path_join OUT_DIR (path_name absolute) in
  match copy2 (files st) absolute dst with
  | Ok files' =>
      Done (State files' (processed_files st) (S (extracted st))
                  (log st ++ [Copied absolute dst]))
  | Raise e => Crash e st
  end.

(** Lines 174-192, and again lines 198-216 with [candidate] for
    [absolute]: what is done with a path that exists. *)
Definition process_existing (absolute : path) (st : state) : outcome :=
  if String.eqb (lower (path_suffix absolute)) ".b3dm" then
    if decide (absolute ∈ processed_files st) then Done st
    else Done (extract_file absolute (add_processed absolute st))
  else if bool_decide (lower (path_suffix absolute) ∈ [".glb"; ".gltf"]%string) then
    if decide (absolute ∈ processed_files st) then Done st
    else copy_file absolute (add_processed absolute st)
  else Done st.

(** Lines 165-219: the content of a tile whose [intersects] flag is
    [intersects]. *)
Definition process_content (intersects : bool) (content : option content_ref)
  (base_path : path) (st : state) : outcome :=
  match content with
  | Some content =>
      if intersects then
        let uri := py_or (py_or (uri content) (url content)) (uri content) in
        match uri with
        | Some uri_ =>
            if truthy uri then
              let absolute := resolve base_path uri_ in
              if bool_decide (is_Some (files st !! absolute)) then
                process_existing absolute st
              else
                let candidate := resolve base_path uri_ in
                if bool_decide (is_Some (files st !! candidate)) then
                  process_existing candidate st
                else Done st
            else Done st
        | None => Done st
        end
      else Done st
  | None => Done st
  end.

(** Lines 156-223. *)
Fixpoint process_tile (t : tile num) (base_path : path) (st : state)
  {struct t} : outcome :=
  match t with
  | Tile _ content children =>
      match tile_intersects t with
      | Raise e => Crash e st
      | Ok intersects =>
          and_then (process_content intersects content base_path st)
            (for_each (fun child => process_tile child base_path) children)
      end
  end.

(** Lines 225-240 of [main]: the loop over [tileset_paths]. *)
Definition main (tileset_paths : list (manifest num)) (st : state) : outcome :=
  for_each
    (fun '(parent, js) st =>
       match js with
       | None => Done st                       (* "Failed to parse tileset" *)
       | Some js =>
           match root js with
           | None =>
               match tiles js with
               | Some tiles => for_each (fun t => process_tile t parent) tiles st
               | None => Done st
               end
           | Some root_tile => process_tile root_tile parent st
           end
       end)
    tileset_paths st.

End script.
End extract_shibuya_scramble.

(** ** extract_b3dm_to_glb.py *)

Module extract_b3dm_to_glb.
Section script.
Context {num : Type} `{Env num}.

(** Lines 10-15. *)
Definition bbox_intersect (region : list num)
  (target_bbox : num * num * num * num) : result bool :=
  west ← index region 0;
  south ← index region 1;
  east ← index region 2;
  north ← index region 3;
  let '(lon_min, lat_min, lon_max, lat_max) := target_bbox in
  if lt lon_max west || gt lon_min east then Ok false else
  if lt lat_max south || gt lat_min north then Ok false else
  Ok true.

(** Lines 17-28: the version field is not read, and [byteLength] is read
    after the offset is computed. *)
Definition extract_b3dm_to_glb_bytes (data : bytes) : result bytes :=
  if len data <? 28 then Raise (ValueError TooSmall) else
  let magic := decode_ascii_ignore (slice data 0 4) in
  if negb (String.eqb magic "b3dm") then Raise (ValueError BadMagic) else
  ftJsonLen ← unpack_from_I data 12;
  ftBinLen ← unpack_from_I data 16;
  btJsonLen ← unpack_from_I data 20;
  btBinLen ← unpack_from_I data 24;
  let glb_offset := 28 + ftJsonLen + ftBinLen + btJsonLen + btBinLen in
  byteLength ← unpack_from_I data 8;
  let end_ :=
    if (byteLength <=? len data) && (glb_offset <? byteLength)
    then byteLength else len data in
  Ok (slice data glb_offset end_).

(** Lines 63-67 of [process_tile]: the flag [intersects]. *)
Definition tile_intersects (t : tile num) : result bool :=
  let region :=
    match boundingVolume t with
    | Some bv => region bv
    | None => None
    end in
  match region with
  | None | Some [] => Ok true
  | Some region => bbox_intersect region TARGET_BBOX
  end.

(** Lines 76-84: the [try] block on a [.b3dm] file. *)
Definition extract_file (absolute : path) (st : state) : state :=
  let attempt :=
    data ← match files st !! absolute with
           | Some data => Ok data
           | None => Raise FileNotFoundError
           end;
    extract_b3dm_to_glb_bytes data in
  match attempt with
  | Ok glb =>
      let outp := path_join OUT_DIR (path_stem absolute ++ ".glb") in
      State (<[outp := glb]> (files st)) (processed_files st)
            (S (extracted st)) (log st ++ [Extracted absolute outp glb])
  | Raise e =>
      State (files st) (processed_files st) (extracted st)
            (log st ++ [Failed absolute e])
  end.

(** Lines 87-90: the copy of a [.glb] or [.gltf] file. *)
Definition copy_file (absolute : path) (st : state) : outcome :=
  let dst := path_join OUT_DIR (path_name absolute) in
  match copy2 (files st) absolute dst with
  | Ok files' =>
      Done (State files' (processed_files st) (S (extracted st))
                  (log st ++ [Copied absolute dst]))
  | Raise e => Crash e st
  end.

(** Lines 74-90: what is done with a path that exists. *)
Definition process_existing (absolute : path) (st : state) : outcome :=
  if String.eqb (lower (path_suffix absolute)) ".b3dm"
     && negb (bool_decide (absolute ∈ processed_files st))
  then Done (extract_file absolute (add_processed absolute st))
  else if bool_decide (lower (path_suffix absolute) ∈ [".glb"; ".gltf"]%string)
          && negb (bool_decide (absolute ∈ processed_files st))
  then copy_file absolute (add_processed absolute st)
  else Done st.

(** Lines 68-90: the content of a tile whose [intersects] flag is
    [intersects]. *)
Definition process_content (intersects : bool) (content : option content_ref)
  (base_path : path) (st : state) : outcome :=
  match content with
  | Some content =>
      if intersects then
        let uri := py_or (uri content) (url content) in
        match uri with
        | Some uri_ =>
            if truthy uri then
              let absolute := resolve base_path uri_ in
              if bool_decide (is_Some (files st !! absolute)) then
                process_existing absolute st
              else Done st
            else Done st
        | None => Done st
        end
      else Done st
  | None => Done st
  end.

(** Lines 61-92. *)
Fixpoint process_tile (t : tile num) (base_path : path) (st : state)
  {struct t} : outcome :=
  match t with
  | Tile _ content children =>
      match tile_intersects t with
      | Raise e => Crash e st
      | Ok intersects =>
          and_then (process_content intersects content base_path st)
            (for_each (fun child => process_tile child base_path) children)
      end
  end.

(** Lines 94-104: the loop over [tileset_paths]. *)
Definition main (tileset_paths : list (manifest num)) (st : state) : outcome :=
  for_each
    (fun '(parent, js) st =>
       match js with
       | None => Done st                       (* "Parse error" *)
       | Some js =>
           match root js with
           | Some root => process_tile root parent st
           | None =>
               for_each (fun t => process_tile t parent)
                        (default [] (tiles js)) st
           end
       end)
    tileset_paths st.

End script.
End extract_b3dm_to_glb.

(** ** g2h.py *)

Module g2h.

(** Lines 102-120 of [extract_b3dm_glb]: from the bytes read from
    [b3dm_path] to the bytes [glb_data] written to [out_path]. *)
Definition extract_b3dm_glb_data (data : bytes) : result bytes :=
  if len data <? 28 then Raise (ValueError TooSmall) else
  let magic := decode_ascii_ignore (slice data 0 4) in
  if negb (String.eqb magic "b3dm") then Raise (ValueError BadMagic) else
  version ← unpack_from_I data 4;
  byteLength ← unpack_from_I data 8;
  ftJsonLen ← unpack_from_I data 12;
  ftBinLen ← unpack_from_I data 16;
  btJsonLen ← unpack_from_I data 20;
  btBinLen ← unpack_from_I data 24;
  let glb_offset := 28 + ftJsonLen + ftBinLen + btJsonLen + btBinLen in
  if len data <=? glb_offset then Raise (ValueError OffsetOutOfRange) else
  Ok (if byteLength <=? len data
      then slice data glb_offset byteLength
      else slice_from data glb_offset).

(** Lines 95-124: the file is read, its payload is written to
    [out_path] (whose directory is created as needed), and [out_path] is
    returned. *)
Definition extract_b3dm_glb (files : file_system) (b3dm_path out_path : path)
  : result (file_system * path) :=
  data ← match files !! b3dm_path with
         | Some data => Ok data
         | None => Raise FileNotFoundError
         end;
  glb_data ← extract_b3dm_glb_data data;
  Ok (<[out_path := glb_data]> files, out_path).

(** [root.rglob('*')]: every path below [root].  Directories are not
    files of the model, and the order is the one in which the map lists
    its keys; [pathlib] promises none. *)
Definition rglob (files : file_system) (root : path) : list path :=
  List.filter (λ p, bool_decide (root `prefix_of` p ∧ p ≠ root))
              (map_to_list files).*1.

(** The default of [exts] in [find_files], line 83. *)
Definition default_exts : list string :=
  [".glb"; ".gltf"; ".obj"; ".ply"; ".stl"; ".fbx"; ".b3dm"]%string.

(** Lines 80-92; [exts] is [None] when the argument is left out. *)
Definition find_files (files : file_system) (root : path)
  (exts : option (list string)) : list path :=
  let exts := default default_exts exts in
  if bool_decide (is_Some (files !! root)) then
    if bool_decide (lower (path_suffix root) ∈ exts) then [root] else []
  else
    List.filter
      (λ p, bool_decide (is_Some (files !! p))
            && bool_decide (lower (path_suffix p) ∈ exts))
      (rglob files root).

(** Lines 152-156. *)
Definition copy_file (files : file_system) (src dst : path)
  : result (file_system * path) :=
  files' ← copy2 files src dst;
  Ok (files', dst).

Section conversion.

(** [trimesh.load(input_path, force='mesh').export(file_type='glb')] as
    bytes, from the path and the content of the file; [None] when the
    library raises or loads no mesh. *)
Variable trimesh_export : path → bytes → option bytes.

(** Lines 127-149; [None] for the exception that is logged and raised
    again. *)
Definition convert_mesh_to_glb (files : file_system)
  (input_path out_path : path) : option (file_system * path) :=
  data ← files !! input_path;
  glb_bytes ← trimesh_export input_path data;
  Some (<[out_path := glb_bytes]> files, out_path).

(** Lines 303-322 of [main]: the body of the loop over [files], on the
    disk and the list [converted]; every exception is logged and the
    loop goes on. *)
Definition convert (models_out : path) (f : path)
  (st : file_system * list path) : file_system * list path :=
  let '(files, converted) := st in
  let suffix := lower (path_suffix f) in
  let name := path_stem f in
  if bool_decide (suffix ∈ [".glb"; ".gltf"]%string) then
    let dest := path_join models_out (path_name f) in
    match copy_file files f dest with
    | Ok (files', _) => (files', converted ++ [dest])
    | Raise _ => st
    end
  else if String.eqb suffix ".b3dm" then
    let out_glb := path_join models_out (name ++ ".glb") in
    match extract_b3dm_glb files f out_glb with
    | Ok (files', _) => (files', converted ++ [out_glb])
    | Raise _ => st
    end
  else if bool_decide (suffix ∈ [".obj"; ".ply"; ".stl"; ".fbx"]%string) then
    let out_glb := path_join models_out (name ++ ".glb") in
    match convert_mesh_to_glb files f out_glb with
    | Some (files', _) => (files', converted ++ [out_glb])
    | None => st
    end
  else st.

(** Lines 296-322 of [main]: the files found under [working_root] are
    converted one after the other into [models_out]. *)
Definition convert_all (files : file_system) (working_root models_out : path)
  : file_system * list path :=
  let exts := [".glb"; ".gltf"; ".obj"; ".ply"; ".stl"; ".fbx"; ".b3dm"]%string in
  fold_left (λ st f, convert models_out f st)
            (find_files files working_root (Some exts))
            (files, []).

End conversion.

End g2h.

(** [end] in the two scripts: the declared length when it lies
    in [(glb_offset, len(data)]], the buffer length otherwise. *)
Definition script_end (data : bytes) (byteLength glb_offset : N) : N :=
  if (byteLength <=? len data) && (glb_offset <? byteLength)
  then byteLength else len data.

(** ** The copies side by side *)

(** The two scripts that walk tilesets. *)
Inductive script : Set :=
| ExtractShibuyaScramble    (* extract_shibuya_scramble.py *)
| ExtractB3dmToGlb.         (* extract_b3dm_to_glb.py *)

(** The three copies of the container parser. *)
Inductive parser : Set :=
| ScriptParser (s : script)   (* [extract_b3dm_to_glb_bytes] of a script *)
| G2hParser.                  (* the parsing part of [g2h.extract_b3dm_glb] *)

Section copies.
Context {num : Type} `{Env num}.

Definition bbox_intersect (s : script)
  : list num → num * num * num * num → result bool :=
  match s with
  | ExtractShibuyaScramble => extract_shibuya_scramble.bbox_intersect
  | ExtractB3dmToGlb => extract_b3dm_to_glb.bbox_intersect
  end.

Definition tile_intersects (s : script) : tile num → result bool :=
  match s with
  | ExtractShibuyaScramble => extract_shibuya_scramble.tile_intersects
  | ExtractB3dmToGlb => extract_b3dm_to_glb.tile_intersects
  end.

Definition process_existing (s : script) : path → state → outcome :=
  match s with
  | ExtractShibuyaScramble => extract_shibuya_scramble.process_existing
  | ExtractB3dmToGlb => extract_b3dm_to_glb.process_existing
  end.

Definition process_content (s : script)
  : bool → option content_ref → path → state → outcome :=
  match s with
  | ExtractShibuyaScramble => extract_shibuya_scramble.process_content
  | ExtractB3dmToGlb => extract_b3dm_to_glb.process_content
  end.

Definition process_tile (s : script) : tile num → path → state → outcome :=
  match s with
  | ExtractShibuyaScramble => extract_shibuya_scramble.process_tile
  | ExtractB3dmToGlb => extract_b3dm_to_glb.process_tile
  end.

Definition main (s : script) : list (manifest num) → state → outcome :=
  match s with
  | ExtractShibuyaScramble => extract_shibuya_scramble.main
  | ExtractB3dmToGlb => extract_b3dm_to_glb.main
  end.

End copies.

Definition extract_b3dm_to_glb_bytes (s : script) : bytes → result bytes :=
  match s with
  | ExtractShibuyaScramble => extract_shibuya_scramble.extract_b3dm_to_glb_bytes
  | ExtractB3dmToGlb => extract_b3dm_to_glb.extract_b3dm_to_glb_bytes
  end.

Definition parse (p : parser) : bytes → result bytes :=
  match p with
  | ScriptParser s => extract_b3dm_to_glb_bytes s
  | G2hParser => g2h.extract_b3dm_glb_data
  end.

(** ** The words of the specification *)

Section specification.
Context {num : Type} `{Env num}.

(** The nodes of a tile tree in pre-order, children from left to
    right. *)
Fixpoint preorder (t : tile num) : list (tile num) :=
  match t with
  | Tile _ _ children => t :: flat_map preorder children
  end.

(** What a walk does at one node, by the words of the specification:
    the node's own flag decides about the node's own content. *)
Definition visit (s : script) (base_path : path) (t : tile num) (st : state)
  : outcome :=
  match tile_intersects s t with
  | Raise e => Crash e st
  | Ok intersects => process_content s intersects (content t) base_path st
  end.

(** The destination of a source file, by the words of the
    specification: the stem with [.glb] for a container, the name for a
    pass-through asset, none for any other file. *)
Definition destination (p : path) : option path :=
  if String.eqb (lower (path_suffix p)) ".b3dm"
  then Some (path_join OUT_DIR (path_stem p ++ ".glb"))
  else if bool_decide (lower (path_suffix p) ∈ [".glb"; ".gltf"]%string)
  then Some (path_join OUT_DIR (path_name p))
  else None.

(** Every event of a run wrote to the destination of its source. *)
Definition written_to_destination (st : state) : Prop :=
  ∀ ev, ev ∈ log st →
        written_to ev = if succeeded ev then destination (source ev) else None.

(** The state after the asset at [p], holding [data], was copied, by
    the words of the specification: the path is in the processed set,
    the file lies in the output directory under its own name, and it is
    counted. *)
Definition after_copy (p : path) (data : bytes) (st : state) : state :=
  let dst := path_join OUT_DIR (path_name p) in
  State (<[dst := data]> (files st)) ({[p]} ∪ processed_files st)
        (S (extracted st)) (log st ++ [Copied p dst]).

(** The state after the payload [glb] of the container at [p] was
    extracted: the path is in the processed set, the payload lies in the
    output directory under the stem of the container with [.glb], and it
    is counted. *)
Definition after_extraction (p : path) (glb : bytes) (st : state) : state :=
  let out := path_join OUT_DIR (path_stem p ++ ".glb") in
  State (<[out := glb]> (files st)) ({[p]} ∪ processed_files st)
        (S (extracted st)) (log st ++ [Extracted p out glb]).

(** The state after the parser refused the container at [p] with [e]:
    the path is in the processed set, nothing is written or counted. *)
Definition after_failure (p : path) (e : exn) (st : state) : state :=
  State (files st) ({[p]} ∪ processed_files st) (extracted st)
        (log st ++ [Failed p e]).

End specification.

(** The bookkeeping of a run: no source path has two events, every
    source of an event is in the processed set, and the count is the
    number of events that succeeded. *)
Definition each_source_once (st : state) : Prop :=
  NoDup (source <$> log st) ∧
  (∀ ev, ev ∈ log st → source ev ∈ processed_files st) ∧
  extracted st = length (List.filter succeeded (log st)).

(** A later state of a run, seen from an earlier one: nothing is taken
    back. *)
Definition grows (st st' : state) : Prop :=
  processed_files st ⊆ processed_files st' ∧
  (extracted st ≤ extracted st')%nat ∧
  log st `prefix_of` log st' ∧
  dom (files st) ⊆ dom (files st').

(** The same surroundings with another target box. *)
Definition with_target_bbox {num} (E : Env num) (box : num * num * num * num)
  : Env num :=
  {| lt := @lt num E; TARGET_BBOX := box;
     OUT_DIR := @OUT_DIR num E; resolve := @resolve num E |}.

(** What the loop keeps true of the disk and of the list [converted],
    seen from the disk [files0] it started on. *)
Definition converted_well (models_out : path) (files0 : file_system)
  (st : file_system * list path) : Prop :=
  (∀ d, d ∈ st.2 →
        is_Some (st.1 !! d) ∧
        (∃ name, d = path_join models_out name) ∧
        lower (path_suffix d) ∈ [".glb"; ".gltf"]%string) ∧
  (∀ q, (∀ name, q ≠ path_join models_out name) → st.1 !! q = files0 !! q) ∧
  dom files0 ⊆ dom st.1.

(** ** Concrete surroundings *)

(** The components of a URI, split at every slash. *)
Fixpoint split_slash (s : string) : list string :=
  match s with
  | EmptyString => [EmptyString]
  | String c rest =>
      if Ascii.eqb c "/" then EmptyString :: split_slash rest
      else match split_slash rest with
           | first :: others => String c first :: others
           | [] => [String c EmptyString]
           end
  end.

(** [(base_path / uri).resolve()] on a disk without symbolic links: an
    absolute [uri] replaces [base_path], empty and [.] components are
    dropped, [..] steps to the parent. *)
Definition resolve_lexical (base_path : path) (uri : string) : path :=
  fold_left
    (λ acc c,
       if (String.eqb c "" || String.eqb c ".")%bool then acc
       else if String.eqb c ".." then removelast acc
       else acc ++ [c])
    (split_slash uri)
    (match uri with
     | String "/" _ => []
     | _ => base_path
     end).

(** The surroundings of [extract_b3dm_to_glb.py]: IEEE doubles with
    their comparison, and the constants of lines 6 and 7. *)
#[global] Instance kaggle_env : Env float := {|
  lt := PrimFloat.ltb;
  TARGET_BBOX := (139.6996, 35.6588, 139.7014, 35.6602)%float;
  OUT_DIR := ["kaggle"; "working"; "output_glb"]%string;
  resolve := resolve_lexical
|}.

(** Exact rational coordinates (every JSON integer and every finite
    double is one), with the box of the scripts in decimal. *)
Definition Qltb (a b : Q) : bool := negb (Qle_bool b a).

#[global] Instance rational_env : Env Q := {|
  lt := Qltb;
  TARGET_BBOX := (1396996 # 10000, 356588 # 10000,
                  1397014 # 10000, 356602 # 10000)%Q;
  OUT_DIR := ["kaggle"; "working"; "output_glb"]%string;
  resolve := resolve_lexical
|}.

(** A rectangle [(west, south, east, north)], in its two roles. *)
Definition as_region {num} (r : num * num * num * num)
  (minHeight maxHeight : num) : list num :=
  let '(west, south, east, north) := r in
  [west; south; east; north; minHeight; maxHeight].

Definition as_box {num} (r : num * num * num * num) : num * num * num * num :=
  let '(lon_min, lat_min, lon_max, lat_max) := r in
  (lon_min, lat_min, lon_max, lat_max).

(** ** Sample inputs *)

(** The container of the specification's scenario: version 1, declared
    length 100, a feature table of 20 bytes, 52 bytes of payload. *)
Definition scenario_container : bytes :=
  b3dm_magic
  ++ [x01; x00; x00; x00] ++ [x64; x00; x00; x00]
  ++ [x14; x00; x00; x00] ++ [x00; x00; x00; x00]
  ++ [x00; x00; x00; x00] ++ [x00; x00; x00; x00]
  ++ replicate 20 x20 ++ replicate 52 x67.

(** A container that ends with its header: version 1, declared length
    28, four empty tables, no payload byte. *)
Definition header_only : bytes :=
  b3dm_magic
  ++ [x01; x00; x00; x00] ++ [x1c; x00; x00; x00]
  ++ replicate 16 x00.

(** A container whose declared length was left at zero: version 1, four
    empty tables, and the four payload bytes [glTF]. *)
Definition undeclared_length : bytes :=
  b3dm_magic
  ++ [x01; x00; x00; x00] ++ [x00; x00; x00; x00]
  ++ replicate 16 x00 ++ [x67; x6c; x54; x46].

(** A disk with one container and one asset in the directory [data]. *)
Definition sample_disk : file_system :=
  {[ ["data"; "a.b3dm"]%string := b3dm_magic
       ++ [x01; x00; x00; x00] ++ [x20; x00; x00; x00]
       ++ replicate 16 x00 ++ [x67; x6c; x54; x46];
     ["data"; "b.glb"]%string := [x67; x6c; x54; x46; x02] ]}.

(** The tileset of the specification's last scenario: a root without
    content, a child that intersects the box and refers to the
    container, a child far from the box that refers to the asset. *)
Definition near_tile : tile float :=
  Tile (Some (BoundingVolume (Some [139.70; 35.65; 139.71; 35.66; 0; 100]%float)))
       (Some (Content (Some "a.b3dm"%string) None)) [].

Definition far_tile : tile float :=
  Tile (Some (BoundingVolume (Some [0; 0; 1; 1; 0; 100]%float)))
       (Some (Content (Some "b.glb"%string) None)) [].

Definition sample_root : tile float := Tile None None [near_tile; far_tile].

(** Two assets of the same name in two directories, and a tileset
    whose two tiles refer to them. *)
Definition twin_disk : file_system :=
  {[ ["data"; "x"; "m.glb"]%string := [x01];
     ["data"; "y"; "m.glb"]%string := [x02] ]}.

Definition twin_root : tile float :=
  Tile None None
    [Tile None (Some (Content (Some "x/m.glb"%string) None)) [];
     Tile None (Some (Content (Some "y/m.glb"%string) None)) []].

(** * Properties *)

(** ** The model on small inputs *)

Example slices :
  slice [x01; x02; x03; x04] 1 3 = [x02; x03] ∧
  slice [x01; x02; x03; x04] 3 1 = [] ∧
  slice [x01; x02; x03; x04] 2 4294967295 = [x03; x04] ∧
  slice [x01; x02; x03; x04] 9 12 = [] ∧
  slice_from [x01; x02; x03; x04] 3 = [x04].
Proof. by vm_compute. Qed.

Example header_reads :
  unpack_from_I [x00; x78; x56; x34; x12; xff] 1 = Ok 305419896 ∧
  unpack_from_I [x00; x78; x56; x34; x12; xff] 2 = Ok 4279383126 ∧
  unpack_from_I [x00; x78; x56; x34; x12; xff] 3 = Raise struct_error.
Proof. by vm_compute. Qed.

Example decoding :
  decode_ascii_ignore [x62; x33; x64; x6d] = "b3dm"%string ∧
  decode_ascii_ignore [x62; xff; x33; x64] = "b3d"%string.
Proof. by vm_compute. Qed.

Example path_parts :
  path_suffix ["data"; "Tile.B3DM"]%string = ".B3DM"%string ∧
  lower (path_suffix ["data"; "Tile.B3DM"]%string) = ".b3dm"%string ∧
  path_stem ["data"; "Tile.B3DM"]%string = "Tile"%string ∧
  path_suffix ["a.tar.gz"]%string = ".gz"%string ∧
  path_stem ["a.tar.gz"]%string = "a.tar"%string ∧
  path_suffix [".hidden"]%string = ""%string ∧
  path_stem [".hidden"]%string = ".hidden"%string ∧
  path_suffix ["dot."]%string = ""%string ∧
  path_name ["data"; "x"; "m.glb"]%string = "m.glb"%string.
Proof. by vm_compute. Qed.

Example resolving :
  resolve_lexical ["data"; "t"]%string "x/m.glb" = ["data"; "t"; "x"; "m.glb"]%string ∧
  resolve_lexical ["data"; "t"]%string "../m.glb" = ["data"; "m.glb"]%string ∧
  resolve_lexical ["data"; "t"]%string "./a//b.b3dm" = ["data"; "t"; "a"; "b.b3dm"]%string ∧
  resolve_lexical ["data"; "t"]%string "/abs/m.glb" = ["abs"; "m.glb"]%string.
Proof. by vm_compute. Qed.

Example optional_strings :
  py_or (Some "a"%string) (Some "b"%string) = Some "a"%string ∧
  py_or (Some ""%string) (Some "b"%string) = Some "b"%string ∧
  py_or None (Some "b"%string) = Some "b"%string ∧
  py_or None None = None ∧
  py_or (Some ""%string) None = None.
Proof. by vm_compute. Qed.

Example flags (s : script) :
  tile_intersects s near_tile = Ok true ∧
  tile_intersects s far_tile = Ok false ∧
  tile_intersects s sample_root = Ok true ∧
  tile_intersects s
    (Tile (Some (BoundingVolume (Some [139.70; 35.65; 139.71]%float))) None [])
  = Raise IndexError.
Proof. by destruct s; vm_compute. Qed.

(** A region that is too short ends the walk before the children of the
    tile are looked at. *)
Example short_region_ends_the_walk (s : script) :
  process_tile s
    (Tile (Some (BoundingVolume (Some [139.70; 35.65; 139.71]%float))) None
          [near_tile])
    ["data"%string] (initial sample_disk)
  = Crash IndexError (initial sample_disk).
Proof. by destruct s; vm_compute. Qed.

(** An asset that already lies in the output directory cannot be copied
    onto itself; its path is in the processed set all the same. *)
Example copy_onto_itself (s : script) :
  let here := ["kaggle"; "working"; "output_glb"; "m.glb"]%string in
  let st := State {[ here := [x01] ]} ∅ 0 [] in
  process_existing (num := float) s here st
  = Crash SameFileError (add_processed here st).
Proof. by destruct s; vm_compute. Qed.

(** ** Slices and header fields *)

Lemma slice_from_drop (data : bytes) (a : N) :
  slice_from data a = drop (N.to_nat a) data.
Proof.
  revert a. induction data as [|x data IH]; intros a; simpl.
  - by destruct (N.to_nat a).
  - destruct (N.eqb_spec a 0) as [->|Ha]; [done|].
    rewrite IH. by replace (N.to_nat a) with (S (N.to_nat (N.pred a))) by lia.
Qed.

Lemma slice_to_take (data : bytes) (b : N) :
  slice_to data b = take (N.to_nat b) data.
Proof.
  revert b. induction data as [|x data IH]; intros b; simpl.
  - by destruct (N.to_nat b).
  - destruct (N.eqb_spec b 0) as [->|Hb]; [done|].
    rewrite IH. by replace (N.to_nat b) with (S (N.to_nat (N.pred b))) by lia.
Qed.

Lemma slice_take_drop (data : bytes) (a b : N) :
  slice data a b = take (N.to_nat (b - a)) (drop (N.to_nat a) data).
Proof. unfold slice. by rewrite slice_to_take, slice_from_drop. Qed.

(** The slice [data[a:b]] holds the bytes of [data] at the positions
    [a], ..., [b - 1] that exist. *)
Lemma slice_lookup (data : bytes) (a b : N) (i : nat) :
  (N.of_nat i < b - a) →
  slice data a b !! i = data !! (N.to_nat a + i)%nat.
Proof.
  intros Hi. rewrite slice_take_drop, lookup_take_lt by lia.
  by rewrite lookup_drop.
Qed.

Lemma len_slice (data : bytes) (a b : N) :
  len (slice data a b) = N.min b (len data) - a.
Proof.
  unfold len. rewrite slice_take_drop, length_take, length_drop. lia.
Qed.

Lemma slice_empty (data : bytes) (a b : N) :
  len data <= a → slice data a b = [].
Proof.
  intros Ha. apply length_zero_iff_nil.
  pose proof (len_slice data a b) as Hl. unfold len in *. lia.
Qed.

Lemma slice_from_slice (data : bytes) (a : N) :
  slice_from data a = slice data a (len data).
Proof.
  rewrite slice_take_drop, slice_from_drop. symmetry. apply take_ge.
  rewrite length_drop. unfold len. lia.
Qed.

(** Inside the buffer, [unpack_from_I] returns a value. *)
Lemma unpack_from_I_in_range (data : bytes) (offset : N) :
  offset + 4 <= len data → ∃ v, unpack_from_I data offset = Ok v.
Proof.
  intros Hr. unfold unpack_from_I.
  pose proof (len_slice data offset (offset + 4)) as Hl.
  replace (N.min (offset + 4) (len data) - offset) with 4 in Hl by lia.
  unfold len in Hl.
  destruct (slice data offset (offset + 4)) as [|b0 [|b1 [|b2 [|b3 [|b4 l]]]]];
    simpl in Hl; try lia.
  eauto.
Qed.

(** The value is the little-endian reading of the four bytes found at
    the offset. *)
Lemma unpack_from_I_little_endian (pre post : bytes) (b0 b1 b2 b3 : byte) :
  unpack_from_I (pre ++ [b0; b1; b2; b3] ++ post) (len pre)
  = Ok (Byte.to_N b0 + 256 * Byte.to_N b1
        + 65536 * Byte.to_N b2 + 16777216 * Byte.to_N b3).
Proof.
  unfold unpack_from_I. rewrite slice_take_drop.
  replace (N.to_nat (len pre + 4 - len pre)) with 4%nat by lia.
  unfold len. rewrite Nat2N.id, drop_app_length. reflexivity.
Qed.

(** The magic test of the three parsers passes exactly on the buffers
    that start with the four bytes [b3dm]: a byte dropped by the decoder
    leaves fewer than four characters. *)
Lemma magic_test (data : bytes) :
  String.eqb (decode_ascii_ignore (slice data 0 4)) "b3dm" = true
  ↔ slice data 0 4 = b3dm_magic.
Proof.
  split; [|by intros ->].
  intros Hd%String.eqb_eq.
  pose proof (len_slice data 0 4) as Hl. unfold len in Hl.
  set (l := slice data 0 4) in *. clearbody l.
  unfold decode_ascii_ignore in Hd.
  apply (f_equal list_ascii_of_string) in Hd.
  rewrite list_ascii_of_string_of_list_ascii in Hd. simpl in Hd.
  assert (Hf : List.filter (λ b, Byte.to_N b <? 128) l = l).
  { apply (f_equal (@length _)) in Hd. rewrite length_map in Hd. simpl in Hd.
    assert (Hall : ∀ (p : byte → bool) (k : list byte),
      (length k ≤ length (List.filter p k))%nat → List.filter p k = k).
    { intros p k. induction k as [|x k IH]; [done|]. simpl.
      pose proof (List.filter_length_le p k).
      destruct (p x); simpl; intros Hk; [f_equal; apply IH|]; lia. }
    apply Hall. lia. }
  rewrite Hf in Hd.
  destruct l as [|b0 [|b1 [|b2 [|b3 [|b4 l]]]]]; simplify_eq/=.
  unfold b3dm_magic.
  repeat match goal with
  | Hb : ascii_of_byte ?b = _ |- _ =>
      apply (f_equal byte_of_ascii) in Hb;
      rewrite byte_of_ascii_of_byte in Hb; simpl in Hb; subst b
  end.
  reflexivity.
Qed.

Lemma magic_test_fails (data : bytes) :
  slice data 0 4 ≠ b3dm_magic →
  String.eqb (decode_ascii_ignore (slice data 0 4)) "b3dm" = false.
Proof.
  intros Hne. apply not_true_is_false. by rewrite magic_test.
Qed.

(** The six header fields of a buffer of at least 28 bytes. *)
Lemma header_fields (data : bytes) :
  28 <= len data →
  ∃ version byteLength ftJsonLen ftBinLen btJsonLen btBinLen,
    unpack_from_I data 4 = Ok version ∧
    unpack_from_I data 8 = Ok byteLength ∧
    unpack_from_I data 12 = Ok ftJsonLen ∧
    unpack_from_I data 16 = Ok ftBinLen ∧
    unpack_from_I data 20 = Ok btJsonLen ∧
    unpack_from_I data 24 = Ok btBinLen.
Proof.
  intros Hl.
  destruct (unpack_from_I_in_range data 4) as [v ?]; [lia|].
  destruct (unpack_from_I_in_range data 8) as [bl ?]; [lia|].
  destruct (unpack_from_I_in_range data 12) as [f1 ?]; [lia|].
  destruct (unpack_from_I_in_range data 16) as [f2 ?]; [lia|].
  destruct (unpack_from_I_in_range data 20) as [f3 ?]; [lia|].
  destruct (unpack_from_I_in_range data 24) as [f4 ?]; [lia|].
  by exists v, bl, f1, f2, f3, f4.
Qed.

(** ** The container parser *)

(** What the scripts' parser returns on a buffer that passes the length
    and the magic tests: it never raises there. *)
Lemma script_parser_accepts (s : script) (data : bytes) :
  28 <= len data →
  slice data 0 4 = b3dm_magic →
  ∃ byteLength ftJsonLen ftBinLen btJsonLen btBinLen,
    unpack_from_I data 8 = Ok byteLength ∧
    unpack_from_I data 12 = Ok ftJsonLen ∧
    unpack_from_I data 16 = Ok ftBinLen ∧
    unpack_from_I data 20 = Ok btJsonLen ∧
    unpack_from_I data 24 = Ok btBinLen ∧
    let glb_offset := 28 + ftJsonLen + ftBinLen + btJsonLen + btBinLen in
    extract_b3dm_to_glb_bytes s data
    = Ok (slice data glb_offset (script_end data byteLength glb_offset)).
Proof.
  intros Hl Hm.
  destruct (header_fields data Hl)
    as (v & bl & f1 & f2 & f3 & f4 & Hv & Hbl & H1 & H2 & H3 & H4).
  exists bl, f1, f2, f3, f4. repeat split; try done.
  assert (Hlt : (len data <? 28) = false) by (apply N.ltb_ge; lia).
  apply magic_test in Hm.
  destruct s; simpl;
    unfold extract_shibuya_scramble.extract_b3dm_to_glb_bytes,
           extract_b3dm_to_glb.extract_b3dm_to_glb_bytes;
    rewrite Hlt, Hm; simpl; rewrite ?Hv, ?Hbl, H1, H2, H3, H4; simpl;
    rewrite ?Hbl; reflexivity.
Qed.

(** The same for the parser of [g2h.py], which has the offset guard. *)
Lemma g2h_parser_accepts (data : bytes) :
  28 <= len data →
  slice data 0 4 = b3dm_magic →
  ∃ byteLength ftJsonLen ftBinLen btJsonLen btBinLen,
    unpack_from_I data 8 = Ok byteLength ∧
    unpack_from_I data 12 = Ok ftJsonLen ∧
    unpack_from_I data 16 = Ok ftBinLen ∧
    unpack_from_I data 20 = Ok btJsonLen ∧
    unpack_from_I data 24 = Ok btBinLen ∧
    let glb_offset := 28 + ftJsonLen + ftBinLen + btJsonLen + btBinLen in
    g2h.extract_b3dm_glb_data data
    = if len data <=? glb_offset then Raise (ValueError OffsetOutOfRange)
      else Ok (slice data glb_offset
                 (if byteLength <=? len data then byteLength else len data)).
Proof.
  intros Hl Hm.
  destruct (header_fields data Hl)
    as (v & bl & f1 & f2 & f3 & f4 & Hv & Hbl & H1 & H2 & H3 & H4).
  exists bl, f1, f2, f3, f4. repeat split; try done.
  assert (Hlt : (len data <? 28) = false) by (apply N.ltb_ge; lia).
  apply magic_test in Hm.
  unfold g2h.extract_b3dm_glb_data.
  rewrite Hlt, Hm; simpl; rewrite Hv, Hbl, H1, H2, H3, H4; simpl.
  destruct (len data <=? _); [done|].
  destruct (bl <=? len data); [done|]. by rewrite slice_from_slice.
Qed.

(** A buffer shorter than the header is rejected by every copy. *)
Lemma parse_too_small (p : parser) (data : bytes) :
  len data < 28 → parse p data = Raise (ValueError TooSmall).
Proof.
  intros Hl%N.ltb_lt.
  destruct p as [[]|]; simpl;
    unfold extract_shibuya_scramble.extract_b3dm_to_glb_bytes,
           extract_b3dm_to_glb.extract_b3dm_to_glb_bytes,
           g2h.extract_b3dm_glb_data; by rewrite Hl.
Qed.

(** A buffer that does not start with the magic is rejected by every
    copy. *)
Lemma parse_bad_magic (p : parser) (data : bytes) :
  28 <= len data → slice data 0 4 ≠ b3dm_magic →
  parse p data = Raise (ValueError BadMagic).
Proof.
  intros Hl%N.ltb_ge Hm%magic_test_fails.
  destruct p as [[]|]; simpl;
    unfold extract_shibuya_scramble.extract_b3dm_to_glb_bytes,
           extract_b3dm_to_glb.extract_b3dm_to_glb_bytes,
           g2h.extract_b3dm_glb_data; by rewrite Hl, Hm.
Qed.

(** The two scripts' copies of the parser are the same function. *)
Lemma script_parsers_agree (data : bytes) :
  extract_b3dm_to_glb_bytes ExtractShibuyaScramble data
  = extract_b3dm_to_glb_bytes ExtractB3dmToGlb data.
Proof.
  destruct (N.lt_ge_cases (len data) 28) as [Hl|Hl].
  { pose proof (λ s, parse_too_small (ScriptParser s) data Hl) as Hs.
    simpl in Hs. by rewrite !Hs. }
  destruct (decide (slice data 0 4 = b3dm_magic)) as [Hm|Hm].
  - destruct (script_parser_accepts ExtractShibuyaScramble data Hl Hm)
      as (bl & f1 & f2 & f3 & f4 & Hbl & H1 & H2 & H3 & H4 & ->).
    destruct (script_parser_accepts ExtractB3dmToGlb data Hl Hm)
      as (bl' & f1' & f2' & f3' & f4' & Hbl' & H1' & H2' & H3' & H4' & ->).
    congruence.
  - pose proof (λ s, parse_bad_magic (ScriptParser s) data Hl Hm) as Hs.
    simpl in Hs. by rewrite !Hs.
Qed.

Example scenario_container_parse (p : parser) :
  len scenario_container = 100 ∧
  parse p scenario_container = Ok (slice scenario_container 48 100) ∧
  slice scenario_container 48 100 = replicate 52 x67.
Proof. by destruct p as [[]|]; vm_compute. Qed.

(** C1. On a buffer of at least 28 bytes that starts with [b3dm] and
    whose payload offset [o] (28 plus the four table lengths read as
    little-endian u32 at 12, 16, 20 and 24) is below the buffer length,
    [extract_b3dm_to_glb_bytes] of either script returns the bytes of the
    range [[o, e)] for an [e] with [28 <= o < e <= len(data)]. *)
Theorem C1_payload_range (s : script) (data : bytes) :
  28 <= len data →
  slice data 0 4 = b3dm_magic →
  ∃ ftJsonLen ftBinLen btJsonLen btBinLen,
    unpack_from_I data 12 = Ok ftJsonLen ∧
    unpack_from_I data 16 = Ok ftBinLen ∧
    unpack_from_I data 20 = Ok btJsonLen ∧
    unpack_from_I data 24 = Ok btBinLen ∧
    let o := 28 + ftJsonLen + ftBinLen + btJsonLen + btBinLen in
    (o < len data →
     ∃ e, extract_b3dm_to_glb_bytes s data = Ok (slice data o e) ∧
          28 <= o ∧ o < e ∧ e <= len data ∧
          len (slice data o e) = e - o).
Proof.
  intros Hl Hm.
  destruct (script_parser_accepts s data Hl Hm)
    as (bl & f1 & f2 & f3 & f4 & Hbl & H1 & H2 & H3 & H4 & Hp).
  exists f1, f2, f3, f4. repeat split; try done.
  intros o Ho. exists (script_end data bl o).
  split; [exact Hp|].
  assert (He : o < script_end data bl o ∧ script_end data bl o <= len data).
  { unfold script_end.
    destruct (N.leb_spec bl (len data)), (N.ltb_spec o bl); simpl; lia. }
  rewrite len_slice. lia.
Qed.

Lemma C1_payload_range_witness :
  ∃ e, extract_b3dm_to_glb_bytes ExtractShibuyaScramble scenario_container
       = Ok (slice scenario_container 48 e) ∧ 48 < e ∧ e <= 100.
Proof.
  destruct (C1_payload_range ExtractShibuyaScramble scenario_container)
    as (f1 & f2 & f3 & f4 & H1 & H2 & H3 & H4 & Hr);
    [vm_compute; discriminate | reflexivity |].
  vm_compute in H1, H2, H3, H4. simplify_eq.
  destruct Hr as (e & Hp & _ & Ho & He & _); [vm_compute; reflexivity|].
  exists e. split; [exact Hp|]. split; [exact Ho | exact He].
Defined.

(** The guard of [g2h.py]: an offset at or beyond the end of the buffer
    is rejected. *)
Lemma g2h_offset_guard (data : bytes) :
  28 <= len data →
  slice data 0 4 = b3dm_magic →
  ∃ ftJsonLen ftBinLen btJsonLen btBinLen,
    unpack_from_I data 12 = Ok ftJsonLen ∧
    unpack_from_I data 16 = Ok ftBinLen ∧
    unpack_from_I data 20 = Ok btJsonLen ∧
    unpack_from_I data 24 = Ok btBinLen ∧
    (len data <= 28 + ftJsonLen + ftBinLen + btJsonLen + btBinLen →
     g2h.extract_b3dm_glb_data data = Raise (ValueError OffsetOutOfRange)).
Proof.
  intros Hl Hm.
  destruct (g2h_parser_accepts data Hl Hm)
    as (bl & f1 & f2 & f3 & f4 & Hbl & H1 & H2 & H3 & H4 & Hp).
  exists f1, f2, f3, f4. repeat split; try done.
  intros Ho%N.leb_le. simpl in Hp. by rewrite Ho in Hp.
Qed.

(** The two scripts have no such guard: there the same buffers yield an
    empty payload. *)
Lemma script_offset_unguarded (s : script) (data : bytes) :
  28 <= len data →
  slice data 0 4 = b3dm_magic →
  ∃ ftJsonLen ftBinLen btJsonLen btBinLen,
    unpack_from_I data 12 = Ok ftJsonLen ∧
    unpack_from_I data 16 = Ok ftBinLen ∧
    unpack_from_I data 20 = Ok btJsonLen ∧
    unpack_from_I data 24 = Ok btBinLen ∧
    (len data <= 28 + ftJsonLen + ftBinLen + btJsonLen + btBinLen →
     extract_b3dm_to_glb_bytes s data = Ok []).
Proof.
  intros Hl Hm.
  destruct (script_parser_accepts s data Hl Hm)
    as (bl & f1 & f2 & f3 & f4 & Hbl & H1 & H2 & H3 & H4 & Hp).
  exists f1, f2, f3, f4. repeat split; try done.
  intros Ho. simpl in Hp. by rewrite Hp, slice_empty.
Qed.

(** C2. On [header_only] the payload offset is 28, the length of the
    buffer: [g2h.py] raises the offset error, the two scripts return an
    empty payload instead. *)
Theorem C2_offset_at_end_of_buffer :
  len header_only = 28 ∧
  unpack_from_I header_only 12 = Ok 0 ∧
  unpack_from_I header_only 16 = Ok 0 ∧
  unpack_from_I header_only 20 = Ok 0 ∧
  unpack_from_I header_only 24 = Ok 0 ∧
  g2h.extract_b3dm_glb_data header_only = Raise (ValueError OffsetOutOfRange) ∧
  ∀ s, extract_b3dm_to_glb_bytes s header_only = Ok [].
Proof. repeat split; try by vm_compute. by intros []; vm_compute. Qed.

(** Where the three copies do agree: on every buffer whose payload
    offset lies inside it and whose declared length is beyond the offset
    (or beyond the buffer). *)
Lemma parsers_agree_on_consistent_headers (p q : parser) (data : bytes) :
  28 <= len data →
  slice data 0 4 = b3dm_magic →
  ∃ byteLength ftJsonLen ftBinLen btJsonLen btBinLen,
    unpack_from_I data 8 = Ok byteLength ∧
    unpack_from_I data 12 = Ok ftJsonLen ∧
    unpack_from_I data 16 = Ok ftBinLen ∧
    unpack_from_I data 20 = Ok btJsonLen ∧
    unpack_from_I data 24 = Ok btBinLen ∧
    let glb_offset := 28 + ftJsonLen + ftBinLen + btJsonLen + btBinLen in
    (glb_offset < len data →
     glb_offset < byteLength ∨ len data < byteLength →
     parse p data = parse q data).
Proof.
  intros Hl Hm.
  destruct (g2h_parser_accepts data Hl Hm)
    as (bl & f1 & f2 & f3 & f4 & Hbl & H1 & H2 & H3 & H4 & Hg).
  exists bl, f1, f2, f3, f4. repeat split; try done.
  intros o Ho Hb.
  assert (Hs : ∀ s, extract_b3dm_to_glb_bytes s data
                    = g2h.extract_b3dm_glb_data data).
  { intros s.
    destruct (script_parser_accepts s data Hl Hm)
      as (bl' & f1' & f2' & f3' & f4' & Hbl' & H1' & H2' & H3' & H4' & ->).
    assert (bl' = bl ∧ f1' = f1 ∧ f2' = f2 ∧ f3' = f3 ∧ f4' = f4)
      as (-> & -> & -> & -> & ->) by (repeat split; congruence).
    rewrite Hg. fold o.
    destruct (N.leb_spec (len data) o); [lia|].
    unfold script_end.
    destruct (N.leb_spec bl (len data)), (N.ltb_spec o bl); simpl;
      try done; lia. }
  destruct p as [s|], q as [s'|]; simpl; rewrite ?Hs; done.
Qed.

(** C6. On [undeclared_length] the declared length 0 is not beyond the
    payload offset 28: the two scripts fall back to the end of the buffer
    and return the four payload bytes, [g2h.py] slices up to the declared
    length and returns none.  On [header_only] the scripts return an
    empty payload where [g2h.py] raises. *)
Theorem C6_copies_disagree :
  (∀ s, parse (ScriptParser s) undeclared_length = Ok [x67; x6c; x54; x46]) ∧
  parse G2hParser undeclared_length = Ok [] ∧
  (∀ s, parse (ScriptParser s) header_only = Ok []) ∧
  parse G2hParser header_only = Raise (ValueError OffsetOutOfRange).
Proof.
  repeat split; try by vm_compute.
  all: by intros []; vm_compute.
Qed.

(** ** The rectangle test *)

Section bbox.
Context {num : Type} `{Env num}.

(** C5. [bbox_intersect] is the negation of the four separations, on
    every region with at least its four horizontal bounds; what follows
    them in the region (the two heights) does not enter the result; and
    where no number is below itself, a region whose west bound is the
    box's [lon_max] intersects when it is not separated on the three
    other sides. *)
Theorem C5_bbox_intersect_formula (s : script)
  (west south east north lon_min lat_min lon_max lat_max : num)
  (heights heights' : list num) :
  bbox_intersect s (west :: south :: east :: north :: heights)
                 (lon_min, lat_min, lon_max, lat_max)
  = Ok (negb (lt lon_max west || gt lon_min east
              || lt lat_max south || gt lat_min north)) ∧
  bbox_intersect s (west :: south :: east :: north :: heights)
                 (lon_min, lat_min, lon_max, lat_max)
  = bbox_intersect s (west :: south :: east :: north :: heights')
                   (lon_min, lat_min, lon_max, lat_max) ∧
  (lt lon_max lon_max = false →
   gt lon_min east = false → lt lat_max south = false →
   gt lat_min north = false →
   bbox_intersect s (lon_max :: south :: east :: north :: heights)
                  (lon_min, lat_min, lon_max, lat_max) = Ok true).
Proof.
  destruct s; simpl;
    unfold extract_shibuya_scramble.bbox_intersect,
           extract_b3dm_to_glb.bbox_intersect; simpl.
  all: split; [|split; [done|]].
  all: try by destruct (lt lon_max west), (gt lon_min east),
                       (lt lat_max south), (gt lat_min north).
  all: by intros -> -> -> ->.
Qed.

(** C8. Testing a rectangle [a] as the region against a rectangle [b] as
    the box gives the same result as testing [b] as the region against
    [a] as the box, whatever heights the regions carry. *)
Theorem C8_bbox_intersect_symmetric (s : script)
  (a b : num * num * num * num) (ha ha' hb hb' : num) :
  bbox_intersect s (as_region a ha ha') (as_box b)
  = bbox_intersect s (as_region b hb hb') (as_box a).
Proof.
  destruct a as [[[aw as_] ae] an], b as [[[bw bs] be] bn].
  destruct s; simpl;
    unfold extract_shibuya_scramble.bbox_intersect,
           extract_b3dm_to_glb.bbox_intersect, gt; simpl.
  all: by destruct (lt be aw), (lt ae bw), (lt bn as_), (lt an bs).
Qed.

End bbox.

(** The intersection scenario of the specification, on doubles and on
    rationals. *)
Example scenario_region_intersects (s : script) :
  bbox_intersect s [139.70; 35.65; 139.71; 35.66; 0; 100]%float TARGET_BBOX
  = Ok true ∧
  bbox_intersect s [13970 # 100; 3565 # 100; 13971 # 100; 3566 # 100; 0; 100]%Q
                 TARGET_BBOX
  = Ok true.
Proof. by destruct s; vm_compute. Qed.

Lemma C5_bbox_intersect_formula_witness :
  bbox_intersect ExtractShibuyaScramble
    [1397014 # 10000; 3565 # 100; 13971 # 100; 3566 # 100; 0; 100]%Q
    TARGET_BBOX = Ok true.
Proof.
  apply (C5_bbox_intersect_formula ExtractShibuyaScramble
           (1397014 # 10000)%Q (3565 # 100)%Q (13971 # 100)%Q (3566 # 100)%Q
           (1396996 # 10000)%Q (356588 # 10000)%Q
           (1397014 # 10000)%Q (356602 # 10000)%Q
           [0; 100]%Q []);
    reflexivity.
Defined.

(** ** The walker: two copies, one function *)

(** Induction on tile trees. *)
Lemma tile_tree_ind {num : Type} (P : tile num → Prop)
  (step : ∀ bv c cs, Forall P cs → P (Tile bv c cs)) : ∀ t, P t.
Proof.
  fix go 1. intros [bv c cs]. apply step.
  revert cs. fix all 1. intros [|child rest]; constructor.
  - apply go.
  - apply all.
Qed.

Lemma for_each_ext {A : Type} (f g : A → state → outcome) (l : list A) :
  Forall (λ x, ∀ st, f x st = g x st) l →
  ∀ st, for_each f l st = for_each g l st.
Proof.
  induction 1 as [|x l Hx _ IH]; intros st; simpl; [done|].
  rewrite Hx. destruct (g x st); simpl; [apply IH | done].
Qed.

Lemma for_each_app {A : Type} (f : A → state → outcome) (l k : list A) st :
  for_each f (l ++ k) st = and_then (for_each f l st) (for_each f k).
Proof.
  revert st. induction l as [|x l IH]; intros st; simpl; [done|].
  destruct (f x st); simpl; [apply IH | done].
Qed.

Lemma for_each_flat_map {A B : Type} (f : B → state → outcome)
  (g : A → list B) (l : list A) st :
  for_each f (flat_map g l) st = for_each (λ x, for_each f (g x)) l st.
Proof.
  revert st. induction l as [|x l IH]; intros st; simpl; [done|].
  rewrite for_each_app. destruct (for_each f (g x) st); simpl; [apply IH | done].
Qed.

Section walker.
Context {num : Type} `{Env num}.

Lemma tile_intersects_same (t : tile num) :
  extract_b3dm_to_glb.tile_intersects t
  = extract_shibuya_scramble.tile_intersects t.
Proof. reflexivity. Qed.

Lemma extract_file_same (absolute : path) (st : state) :
  extract_b3dm_to_glb.extract_file absolute st
  = extract_shibuya_scramble.extract_file absolute st.
Proof.
  unfold extract_b3dm_to_glb.extract_file, extract_shibuya_scramble.extract_file.
  destruct (files st !! absolute) as [data|]; simpl; [|done].
  pose proof (script_parsers_agree data) as Hp. simpl in Hp. by rewrite Hp.
Qed.

Lemma process_existing_same (absolute : path) (st : state) :
  extract_b3dm_to_glb.process_existing absolute st
  = extract_shibuya_scramble.process_existing absolute st.
Proof.
  unfold extract_b3dm_to_glb.process_existing,
         extract_shibuya_scramble.process_existing.
  rewrite extract_file_same.
  destruct (String.eqb _ ".b3dm") eqn:Hb; simpl.
  - apply String.eqb_eq in Hb. rewrite Hb.
    rewrite (bool_decide_eq_false_2 (".b3dm"%string ∈ _)).
    2:{ intros Hin. repeat (apply elem_of_cons in Hin as [?|Hin]; [done|]).
        by apply elem_of_nil in Hin. }
    by repeat case_decide; repeat case_bool_decide.
  - by repeat case_decide; repeat case_bool_decide.
Qed.

(** In [extract_shibuya_scramble.py] the branch for a path that does not
    exist resolves the same URI again and finds the same answer: the
    content step is the one of [extract_b3dm_to_glb.py]. *)
Lemma process_content_same (b : bool) (c : option content_ref)
  (base_path : path) (st : state) :
  extract_b3dm_to_glb.process_content b c base_path st
  = extract_shibuya_scramble.process_content b c base_path st.
Proof.
  unfold extract_b3dm_to_glb.process_content,
         extract_shibuya_scramble.process_content.
  destruct c as [[u v]|]; [|done]. destruct b; [|done]. simpl.
  unfold py_or.
  destruct (truthy u) eqn:Hu; simpl; rewrite ?Hu.
  - destruct u as [u|]; [|done]. simpl.
    case_bool_decide; [apply process_existing_same | done].
  - destruct (truthy v) eqn:Hv; simpl; rewrite ?Hv, ?Hu.
    + destruct v as [v|]; [|done]. simpl.
      case_bool_decide; [apply process_existing_same | done].
    + by destruct u, v.
Qed.

Lemma process_tile_same (t : tile num) :
  ∀ base_path st,
    extract_b3dm_to_glb.process_tile t base_path st
    = extract_shibuya_scramble.process_tile t base_path st.
Proof.
  induction t as [bv c cs IH] using tile_tree_ind. intros base_path st. simpl.
  rewrite tile_intersects_same.
  destruct (extract_shibuya_scramble.tile_intersects _) as [b|e]; [|done].
  rewrite process_content_same.
  destruct (extract_shibuya_scramble.process_content _ _ _ _); simpl; [|done].
  apply for_each_ext. eapply Forall_impl; [exact IH|]. by intros child Hc st'.
Qed.

Lemma main_same (tileset_paths : list (manifest num)) (st : state) :
  extract_b3dm_to_glb.main tileset_paths st
  = extract_shibuya_scramble.main tileset_paths st.
Proof.
  apply for_each_ext. apply Forall_forall. intros [parent [[r ts]|]] _ st'; [|done].
  simpl. destruct r as [r|]; [apply process_tile_same|].
  destruct ts as [ts|]; simpl; [|done].
  apply for_each_ext. apply Forall_forall. intros t _ st''.
  apply process_tile_same.
Qed.

(** Unfolding one level of either copy. *)
Lemma process_tile_unfold (s : script) bv c cs base_path st :
  process_tile s (Tile bv c cs) base_path st
  = and_then (visit s base_path (Tile bv c cs) st)
             (for_each (λ child, process_tile s child base_path) cs).
Proof.
  destruct s; simpl; unfold visit; simpl.
  - by destruct (extract_shibuya_scramble.tile_intersects _).
  - by destruct (extract_b3dm_to_glb.tile_intersects _).
Qed.

Lemma process_tile_preorder (s : script) (t : tile num) (base_path : path) :
  ∀ st, process_tile s t base_path st
        = for_each (visit s base_path) (preorder t) st.
Proof.
  induction t as [bv c cs IH] using tile_tree_ind. intros st.
  rewrite process_tile_unfold. cbn [preorder for_each].
  destruct (visit s base_path (Tile bv c cs) st) as [st'|]; simpl; [|done].
  rewrite for_each_flat_map. apply for_each_ext.
  eapply Forall_impl; [exact IH|]. by intros child Hc st''.
Qed.

(** C3. A walk of a tile tree is the sequence of the visits of all its
    nodes, in pre-order and all with the same [base_path]: no node is
    skipped because of the flag of an ancestor.  At a node whose region
    does not intersect the box the visit leaves the state as it is; at a
    node that intersects it is the processing of the node's content. *)
Theorem C3_every_node_is_visited (s : script) (t : tile num)
  (base_path : path) (st : state) :
  process_tile s t base_path st
  = for_each (visit s base_path) (preorder t) st ∧
  process_tile s t base_path st
  = and_then (visit s base_path t st)
             (for_each (λ child, process_tile s child base_path) (children t)) ∧
  (tile_intersects s t = Ok false → visit s base_path t st = Done st) ∧
  (tile_intersects s t = Ok true →
   visit s base_path t st = process_content s true (content t) base_path st).
Proof.
  split; [|split; [|split]].
  - apply process_tile_preorder.
  - destruct t. apply process_tile_unfold.
  - unfold visit. intros ->. by destruct s, (content t).
  - unfold visit. by intros ->.
Qed.

(** The visit of a tile without a bounding volume whose content refers
    to a file that exists. *)
Lemma visit_existing (s : script) (ref : content_ref) (u : string)
  (cs : list (tile num)) (base_path : path) (st : state) :
  py_or (uri ref) (url ref) = Some u → u ≠ ""%string →
  is_Some (files st !! resolve base_path u) →
  visit s base_path (Tile None (Some ref) cs) st
  = process_existing s (resolve base_path u) st.
Proof.
  destruct ref as [a b]. intros Hu Hne Hex.
  assert (Ht : truthy (Some u) = true).
  { simpl. apply negb_true_iff. by apply String.eqb_neq. }
  assert (Hk : extract_b3dm_to_glb.process_content true
                 (Some (Content a b)) base_path st
               = extract_b3dm_to_glb.process_existing
                   (resolve base_path u) st).
  { unfold extract_b3dm_to_glb.process_content. cbn [uri url] in *.
    rewrite Hu, Ht. by rewrite bool_decide_eq_true_2. }
  unfold visit. destruct s; [|exact Hk].
  change (extract_shibuya_scramble.process_content true
            (Some (Content a b)) base_path st
          = extract_shibuya_scramble.process_existing
              (resolve base_path u) st).
  by rewrite <- process_content_same, <- process_existing_same.
Qed.

(** The same for any tile whose flag is true. *)
Lemma visit_flagged (s : script) (t : tile num) (ref : content_ref)
  (u : string) (base_path : path) (st : state) :
  tile_intersects s t = Ok true → content t = Some ref →
  py_or (uri ref) (url ref) = Some u → u ≠ ""%string →
  is_Some (files st !! resolve base_path u) →
  visit s base_path t st = process_existing s (resolve base_path u) st.
Proof.
  intros Hi Hc Hu Hne Hex. unfold visit. rewrite Hi, Hc.
  pose proof (visit_existing s ref u [] base_path st Hu Hne Hex) as Hv.
  unfold visit in Hv. replace (tile_intersects s (Tile None (Some ref) []))
    with (Ok (A := bool) true) in Hv by (by destruct s). exact Hv.
Qed.

(** What [process_existing] does with a path that is not yet in the
    processed set: an asset is copied, the payload of a container is
    extracted, a container the parser refuses is logged. *)
Lemma process_existing_copies (s : script) (p : path) (data : bytes) st :
  files st !! p = Some data → p ∉ processed_files st →
  lower (path_suffix p) ∈ [".glb"; ".gltf"]%string →
  p ≠ path_join OUT_DIR (path_name p) →
  process_existing s p st = Done (after_copy p data st).
Proof.
  intros Hd Hp Hs Hne.
  assert (Hnb : String.eqb (lower (path_suffix p)) ".b3dm" = false).
  { apply String.eqb_neq. intros Hb. rewrite Hb in Hs.
    repeat (apply elem_of_cons in Hs as [?|Hs]; [done|]).
    by apply elem_of_nil in Hs. }
  assert (Hx : process_existing s p st
               = extract_shibuya_scramble.process_existing p st)
    by (destruct s; [done | apply process_existing_same]).
  rewrite Hx. unfold extract_shibuya_scramble.process_existing.
  rewrite Hnb, bool_decide_eq_true_2, decide_False by done.
  unfold extract_shibuya_scramble.copy_file, copy2.
  rewrite decide_False by done. cbn. by rewrite Hd.
Qed.

Lemma process_existing_parses (s : script) (p : path) (data : bytes) st :
  files st !! p = Some data → p ∉ processed_files st →
  lower (path_suffix p) = ".b3dm"%string →
  process_existing s p st
  = Done (match extract_b3dm_to_glb_bytes s data with
          | Ok glb => after_extraction p glb st
          | Raise e => after_failure p e st
          end).
Proof.
  intros Hd Hp Hs.
  assert (Hb : String.eqb (lower (path_suffix p)) ".b3dm" = true)
    by (by apply String.eqb_eq).
  assert (Hx : process_existing s p st
               = extract_shibuya_scramble.process_existing p st)
    by (destruct s; [done | apply process_existing_same]).
  assert (Hparse : extract_shibuya_scramble.extract_b3dm_to_glb_bytes data
                   = extract_b3dm_to_glb_bytes s data).
  { destruct s; [done|]. apply script_parsers_agree. }
  rewrite Hx. unfold extract_shibuya_scramble.process_existing.
  rewrite Hb, decide_False by done.
  unfold extract_shibuya_scramble.extract_file. cbn. rewrite Hd. cbn.
  rewrite Hparse. by destruct (extract_b3dm_to_glb_bytes s data).
Qed.

(** The walk of a tile whose flag is true and whose content refers to an
    existing file that was not processed before: the file is copied or
    its payload extracted, then the children are walked. *)
Lemma flagged_tile_is_processed (s : script)
  (bv : option (bounding_volume num)) (c : option content_ref)
  (cs : list (tile num)) (base_path : path) (st : state)
  (ref : content_ref) (u : string) (data : bytes) :
  tile_intersects s (Tile bv c cs) = Ok true →
  c = Some ref → py_or (uri ref) (url ref) = Some u → u ≠ ""%string →
  files st !! resolve base_path u = Some data →
  resolve base_path u ∉ processed_files st →
  let p := resolve base_path u in
  let walk := process_tile s (Tile bv c cs) base_path st in
  let rest := for_each (λ child, process_tile s child base_path) cs in
  (lower (path_suffix p) ∈ [".glb"; ".gltf"]%string →
   p ≠ path_join OUT_DIR (path_name p) →
   walk = rest (after_copy p data st)) ∧
  (lower (path_suffix p) = ".b3dm"%string →
   ∀ glb, extract_b3dm_to_glb_bytes s data = Ok glb →
          walk = rest (after_extraction p glb st)) ∧
  (lower (path_suffix p) = ".b3dm"%string →
   ∀ e, extract_b3dm_to_glb_bytes s data = Raise e →
        walk = rest (after_failure p e st)).
Proof.
  intros Hi -> Hu Hne Hd Hp p walk rest.
  assert (Hwalk : walk = and_then (process_existing s p st) rest).
  { unfold walk. rewrite process_tile_unfold. f_equal.
    apply (visit_flagged s _ ref u); try done; by rewrite Hd. }
  split_and!.
  - intros Hs Hdst. by rewrite Hwalk, (process_existing_copies s p data).
  - intros Hs glb Hglb.
    by rewrite Hwalk, (process_existing_parses s p data), Hglb.
  - intros Hs e He.
    by rewrite Hwalk, (process_existing_parses s p data), He.
Qed.

(** ** At most once *)

Lemma each_source_once_fresh (p : path) (st : state) :
  each_source_once st → p ∉ processed_files st → p ∉ source <$> log st.
Proof.
  intros (_ & Hin & _) Hp (ev & -> & Hev)%list_elem_of_fmap. auto.
Qed.

Lemma extract_file_once (p : path) (st : state) :
  each_source_once st → p ∉ processed_files st →
  each_source_once (extract_shibuya_scramble.extract_file p (add_processed p st)).
Proof.
  intros Hinv Hp. pose proof (each_source_once_fresh p st Hinv Hp) as Hfresh.
  destruct Hinv as (Hnd & Hin & Hcount).
  unfold extract_shibuya_scramble.extract_file, each_source_once.
  destruct (_ ≫= _) as [glb|e]; simpl;
    rewrite fmap_app, List.filter_app, length_app; simpl.
  all: split; [apply NoDup_app; split_and!;
                 [done | set_solver | apply NoDup_singleton]|].
  all: split; [intros ev [?| ->%list_elem_of_singleton]%elem_of_app;
                 simpl; set_solver | lia].
Qed.

Lemma copy_file_once (p : path) (st : state) :
  each_source_once st → p ∉ processed_files st →
  each_source_once
    (final (extract_shibuya_scramble.copy_file p (add_processed p st))).
Proof.
  intros Hinv Hp. pose proof (each_source_once_fresh p st Hinv Hp) as Hfresh.
  destruct Hinv as (Hnd & Hin & Hcount).
  unfold extract_shibuya_scramble.copy_file, each_source_once.
  destruct (copy2 _ _ _) as [files'|e]; simpl.
  - rewrite fmap_app, List.filter_app, length_app; simpl.
    split; [apply NoDup_app; split_and!;
              [done | set_solver | apply NoDup_singleton]|].
    split; [intros ev [?| ->%list_elem_of_singleton]%elem_of_app;
              simpl; set_solver | lia].
  - split; [done|]. split; [set_solver | done].
Qed.

Lemma process_existing_once (s : script) (p : path) (st : state) :
  each_source_once st → each_source_once (final (process_existing s p st)).
Proof.
  intros Hinv.
  assert (Hs : process_existing s p st
               = extract_shibuya_scramble.process_existing p st)
    by (destruct s; [done | apply process_existing_same]).
  rewrite Hs. unfold extract_shibuya_scramble.process_existing.
  destruct (String.eqb _ _); [|case_bool_decide]; try case_decide; simpl;
    auto using extract_file_once, copy_file_once.
Qed.

Lemma visit_once (s : script) (base_path : path) (t : tile num) (st : state) :
  each_source_once st → each_source_once (final (visit s base_path t st)).
Proof.
  intros Hinv. unfold visit.
  destruct (tile_intersects s t) as [b|e]; [|done].
  assert (Hs : process_content s b (content t) base_path st
               = extract_b3dm_to_glb.process_content b (content t) base_path st)
    by (destruct s; [symmetry; apply process_content_same | done]).
  rewrite Hs. unfold extract_b3dm_to_glb.process_content.
  destruct (content t) as [ref|]; [|done]. destruct b; [|done].
  destruct (py_or _ _) as [u|]; [|done]. destruct (truthy _); [|done].
  case_bool_decide; [|done].
  rewrite process_existing_same.
  apply (process_existing_once ExtractShibuyaScramble), Hinv.
Qed.

Lemma for_each_preserves {A : Type} (P : state → Prop)
  (body : A → state → outcome) (l : list A) :
  (∀ x st, P st → P (final (body x st))) →
  ∀ st, P st → P (final (for_each body l st)).
Proof.
  intros Hbody. induction l as [|x l IH]; intros st Hst; simpl; [done|].
  specialize (Hbody x st Hst). destruct (body x st); simpl in *; auto.
Qed.

Lemma process_tile_once (s : script) (t : tile num) (base_path : path) st :
  each_source_once st → each_source_once (final (process_tile s t base_path st)).
Proof.
  rewrite process_tile_preorder. apply for_each_preserves.
  intros. by apply visit_once.
Qed.

Lemma main_once (s : script) (tileset_paths : list (manifest num)) st :
  each_source_once st → each_source_once (final (main s tileset_paths st)).
Proof.
  assert (Hs : main s tileset_paths st
               = extract_b3dm_to_glb.main tileset_paths st)
    by (destruct s; [symmetry; apply main_same | done]).
  rewrite Hs. apply for_each_preserves.
  intros [parent [[r ts]|]] st' Hst'; [|done]. simpl.
  destruct r as [r|].
  - by apply (process_tile_once ExtractB3dmToGlb).
  - apply for_each_preserves; [|done].
    intros. by apply (process_tile_once ExtractB3dmToGlb).
Qed.

Lemma processed_before_io (s : script) (p : path) (st : state) :
  is_Some (destination p) → p ∈ processed_files (final (process_existing s p st)).
Proof.
  assert (Hs : process_existing s p st
               = extract_shibuya_scramble.process_existing p st)
    by (destruct s; [done | apply process_existing_same]).
  rewrite Hs. unfold destination, extract_shibuya_scramble.process_existing.
  destruct (String.eqb _ _).
  - intros _. case_decide; simpl; [done|].
    unfold extract_shibuya_scramble.extract_file.
    destruct (_ ≫= _); simpl; set_solver.
  - case_bool_decide; [|by intros []]. intros _.
    case_decide; simpl; [done|].
    unfold extract_shibuya_scramble.copy_file.
    destruct (copy2 _ _ _); simpl; set_solver.
Qed.

(** C4. In the state a run ends in, whether it finishes or is ended by
    an exception, no source path has more than one event (it was
    extracted, failed or copied at most once), the success count is the
    number of events that succeeded, and every source of an event is in
    the processed set; and whatever becomes of a container or asset file
    that is processed, its path is in the processed set afterwards. *)
Theorem C4_each_path_at_most_once (s : script)
  (tileset_paths : list (manifest num)) (disk : file_system) :
  let st := final (main s tileset_paths (initial disk)) in
  NoDup (source <$> log st) ∧
  extracted st = length (List.filter succeeded (log st)) ∧
  (∀ ev, ev ∈ log st → source ev ∈ processed_files st) ∧
  (∀ p st0, is_Some (destination p) →
            p ∈ processed_files (final (process_existing s p st0))).
Proof.
  assert (Hinit : each_source_once (initial disk)).
  { split; [apply NoDup_nil_2|]. split; [|done]. by intros ev ?%elem_of_nil. }
  destruct (main_once s tileset_paths _ Hinit) as (Hnd & Hin & Hcount).
  split_and!; try done. intros p st0. apply processed_before_io.
Qed.

(** ** Destinations *)

Lemma string_length_app (x y : string) :
  String.length (x ++ y) = (String.length x + String.length y)%nat.
Proof. induction x as [|c x IH]; simpl; [done | by rewrite IH]. Qed.

Lemma rfind_dot_glb (x : string) :
  rfind_dot (x ++ ".glb") = Some (String.length x).
Proof. induction x as [|c x IH]; simpl; [done | by rewrite IH]. Qed.

Lemma substring_after (x y : string) :
  substring (String.length x) (String.length y) (x ++ y) = y.
Proof.
  induction x as [|c x IH]; [|done].
  change (substring 0 (String.length y) y = y).
  induction y as [|c y IH]; simpl; [done | by rewrite IH].
Qed.

Lemma path_name_join (d : path) (name : string) :
  path_name (path_join d name) = name.
Proof. apply last_last. Qed.

(** A file named [<stem>.glb] is not taken for a container. *)
Lemma glb_name_not_b3dm (d : path) (x : string) :
  lower (path_suffix (path_join d (x ++ ".glb"))) ≠ ".b3dm"%string.
Proof.
  unfold path_suffix, suffix_index.
  rewrite path_name_join, rfind_dot_glb, string_length_app. simpl.
  destruct (Nat.ltb_spec 0 (String.length x)); simpl; [|done].
  destruct (Nat.ltb_spec (String.length x) (String.length x + 4 - 1)); [|lia].
  replace (String.length x + 4 - String.length x)%nat
    with (String.length ".glb") by (simpl; lia).
  by rewrite substring_after.
Qed.

Lemma destination_by_name (p q : path) :
  path_name p = path_name q → destination p = destination q.
Proof.
  intros Hn. unfold destination, path_suffix, path_stem. by rewrite Hn.
Qed.

(** Two tiles of one walk that refer to distinct existing files of the
    same name: both files are written to one destination. *)
Lemma twin_walk (s : script) (p q : path)
  (u1 u2 : string) (base_path : path) (st : state) (dp dq : bytes) :
  let walk :=
    process_tile s
      (Tile None None [Tile None (Some (Content (Some u1) None)) [];
                       Tile None (Some (Content (Some u2) None)) []])
      base_path st in
  path_name p = path_name q → p ≠ q →
  u1 ≠ ""%string → u2 ≠ ""%string →
  resolve base_path u1 = p → resolve base_path u2 = q →
  files st !! p = Some dp → files st !! q = Some dq →
  p ∉ processed_files st → q ∉ processed_files st →
  (∀ dst,
     lower (path_suffix p) ∈ [".glb"; ".gltf"]%string →
     dst = path_join OUT_DIR (path_name p) → p ≠ dst → q ≠ dst →
     ∃ st', walk = Done st' ∧
            destination p = Some dst ∧
            log st' = log st ++ [Copied p dst; Copied q dst] ∧
            files st' !! dst = Some dq ∧
            extracted st' = (extracted st + 2)%nat) ∧
  (∀ out gp gq,
     lower (path_suffix p) = ".b3dm"%string →
     out = path_join OUT_DIR (path_stem p ++ ".glb") →
     extract_b3dm_to_glb_bytes s dp = Ok gp →
     extract_b3dm_to_glb_bytes s dq = Ok gq →
     ∃ st', walk = Done st' ∧
            destination p = Some out ∧
            log st' = log st ++ [Extracted p out gp; Extracted q out gq] ∧
            files st' !! out = Some gq ∧
            extracted st' = (extracted st + 2)%nat).
Proof.
  intros walk Hn Hpq Hu1 Hu2 Hp Hq Hdp Hdq Hpp Hqp.
  assert (Hsuf : path_suffix q = path_suffix p)
    by (unfold path_suffix; by rewrite Hn).
  assert (Hstem : path_stem q = path_stem p)
    by (unfold path_stem; by rewrite Hn).
  assert (Hex : ∀ s p st, process_existing s p st
                 = extract_shibuya_scramble.process_existing p st)
    by (intros [] ? ?; [done | apply process_existing_same]).
  assert (Hwalk : ∀ st1,
    process_existing s p st = Done st1 →
    files st1 !! q = Some dq →
    walk = process_existing s q st1).
  { intros st1 H1 H2. unfold walk.
    assert (Hor : ∀ u, u ≠ ""%string → py_or (Some u) None = Some u).
    { intros u Hu. unfold py_or. simpl. by destruct (String.eqb_spec u ""). }
    rewrite process_tile_unfold.
    replace (visit s base_path _ st) with (Done st) by (by destruct s).
    cbn [and_then for_each]. rewrite !process_tile_unfold.
    rewrite (visit_existing s _ u1);
      [|by apply Hor|done|by rewrite Hp, Hdp].
    rewrite Hp, H1. cbn [and_then for_each]. rewrite process_tile_unfold.
    rewrite (visit_existing s _ u2);
      [|by apply Hor|done|by rewrite Hq, H2].
    rewrite Hq. by destruct (process_existing s q st1). }
  split.
  - intros dst Hs -> Hpd Hqd.
    assert (Hnb : String.eqb (lower (path_suffix p)) ".b3dm" = false).
    { apply String.eqb_neq. intros Hb. rewrite Hb in Hs.
      repeat (apply elem_of_cons in Hs as [?|Hs]; [done|]).
      by apply elem_of_nil in Hs. }
    eexists. split.
    { erewrite Hwalk; cycle 1.
      - rewrite Hex. unfold extract_shibuya_scramble.process_existing.
        rewrite Hnb, bool_decide_eq_true_2, decide_False by done.
        unfold extract_shibuya_scramble.copy_file, copy2.
        rewrite decide_False by done. cbn. rewrite Hdp. reflexivity.
      - cbn. by rewrite lookup_insert_ne.
      - rewrite Hex. unfold extract_shibuya_scramble.process_existing.
        rewrite Hsuf, Hnb, bool_decide_eq_true_2 by done.
        rewrite decide_False; [|cbn; set_solver].
        unfold extract_shibuya_scramble.copy_file, copy2.
        rewrite <- Hn, decide_False by done. cbn.
        rewrite lookup_insert_ne, Hdq by done. reflexivity. }
    cbn. split_and!.
    + unfold destination. by rewrite Hnb, bool_decide_eq_true_2.
    + by rewrite <- app_assoc.
    + by rewrite lookup_insert_eq.
    + lia.
  - intros out gp gq Hs -> Hgp Hgq.
    assert (Hb : String.eqb (lower (path_suffix p)) ".b3dm" = true)
      by (by apply String.eqb_eq).
    assert (Hqo : path_join OUT_DIR (path_stem p ++ ".glb") ≠ q).
    { intros <-. rewrite <- Hsuf in Hs. by apply glb_name_not_b3dm in Hs. }
    assert (Hparse : ∀ d, extract_shibuya_scramble.extract_b3dm_to_glb_bytes d
                          = extract_b3dm_to_glb_bytes s d).
    { intros d. destruct s; [done|]. apply script_parsers_agree. }
    eexists. split.
    { erewrite Hwalk; cycle 1.
      - rewrite Hex. unfold extract_shibuya_scramble.process_existing.
        rewrite Hb, decide_False by done.
        unfold extract_shibuya_scramble.extract_file. cbn.
        rewrite Hdp. cbn. rewrite Hparse, Hgp. reflexivity.
      - cbn. by rewrite lookup_insert_ne.
      - rewrite Hex. unfold extract_shibuya_scramble.process_existing.
        rewrite Hsuf, Hb. rewrite decide_False; [|cbn; set_solver].
        unfold extract_shibuya_scramble.extract_file. cbn.
        rewrite lookup_insert_ne, Hdq by done. cbn.
        rewrite Hparse, Hgq. reflexivity. }
    cbn. split_and!.
    + unfold destination. by rewrite Hb.
    + by rewrite <- app_assoc, Hstem.
    + by rewrite Hstem, lookup_insert_eq.
    + lia.
Qed.

Lemma process_existing_destination (s : script) (p : path) (st : state) :
  written_to_destination st →
  written_to_destination (final (process_existing s p st)).
Proof.
  intros Hinv.
  assert (Hs : process_existing s p st
               = extract_shibuya_scramble.process_existing p st)
    by (destruct s; [done | apply process_existing_same]).
  rewrite Hs. unfold extract_shibuya_scramble.process_existing.
  destruct (String.eqb _ _) eqn:Hb.
  - case_decide; simpl; [done|].
    unfold extract_shibuya_scramble.extract_file.
    destruct (_ ≫= _); simpl;
      intros ev [?| ->%list_elem_of_singleton]%elem_of_app; auto; simpl.
    unfold destination. by rewrite Hb.
  - case_bool_decide as Hg; [|done]. case_decide; simpl; [done|].
    unfold extract_shibuya_scramble.copy_file.
    destruct (copy2 _ _ _); simpl; [|done].
    intros ev [?| ->%list_elem_of_singleton]%elem_of_app; auto; simpl.
    unfold destination. by rewrite Hb, bool_decide_eq_true_2.
Qed.

Lemma visit_destination (s : script) (base_path : path) (t : tile num) st :
  written_to_destination st →
  written_to_destination (final (visit s base_path t st)).
Proof.
  intros Hinv. unfold visit.
  destruct (tile_intersects s t) as [b|e]; [|done].
  assert (Hs : process_content s b (content t) base_path st
               = extract_b3dm_to_glb.process_content b (content t) base_path st)
    by (destruct s; [symmetry; apply process_content_same | done]).
  rewrite Hs. unfold extract_b3dm_to_glb.process_content.
  destruct (content t) as [ref|]; [|done]. destruct b; [|done].
  destruct (py_or _ _) as [u|]; [|done]. destruct (truthy _); [|done].
  case_bool_decide; [|done].
  apply (process_existing_destination ExtractB3dmToGlb), Hinv.
Qed.

Lemma main_destination (s : script) (tileset_paths : list (manifest num)) st :
  written_to_destination st →
  written_to_destination (final (main s tileset_paths st)).
Proof.
  assert (Hs : main s tileset_paths st
               = extract_b3dm_to_glb.main tileset_paths st)
    by (destruct s; [symmetry; apply main_same | done]).
  assert (Htile : ∀ (t : tile num) base_path st',
    written_to_destination st' →
    written_to_destination
      (final (process_tile ExtractB3dmToGlb t base_path st'))).
  { intros t base_path st'. rewrite process_tile_preorder.
    apply for_each_preserves. intros. by apply visit_destination. }
  rewrite Hs. apply for_each_preserves.
  intros [parent [[r ts]|]] st' Hst'; [|done]. simpl.
  destruct r as [r|]; [by apply (Htile r)|].
  apply for_each_preserves; [|done]. intros t st'' ?. by apply (Htile t).
Qed.

(** C10. Every file a run writes goes to the destination of its source,
    and the destination of a source is a function of its name.  When two
    tiles of one walk refer to distinct existing files of the same name,
    both are written to that one destination, which ends up holding what
    came from the second, and the success count grows by two: for two
    assets that are copied, and for two containers whose payloads are
    extracted. *)
Theorem C10_same_name_same_destination (s : script) :
  (∀ (tileset_paths : list (manifest num)) disk ev,
     ev ∈ log (final (main s tileset_paths (initial disk))) →
     written_to ev = if succeeded ev then destination (source ev) else None) ∧
  (∀ p q, path_name p = path_name q → destination p = destination q) ∧
  (∀ (p q : path) (u1 u2 : string) (base_path : path) (st : state)
     (dp dq : bytes),
     let walk :=
       process_tile s
         (Tile None None [Tile None (Some (Content (Some u1) None)) [];
                          Tile None (Some (Content (Some u2) None)) []])
         base_path st in
     path_name p = path_name q → p ≠ q →
     u1 ≠ ""%string → u2 ≠ ""%string →
     resolve base_path u1 = p → resolve base_path u2 = q →
     files st !! p = Some dp → files st !! q = Some dq →
     p ∉ processed_files st → q ∉ processed_files st →
     (∀ dst,
        lower (path_suffix p) ∈ [".glb"; ".gltf"]%string →
        dst = path_join OUT_DIR (path_name p) → p ≠ dst → q ≠ dst →
        ∃ st', walk = Done st' ∧
               destination p = Some dst ∧
               log st' = log st ++ [Copied p dst; Copied q dst] ∧
               files st' !! dst = Some dq ∧
               extracted st' = (extracted st + 2)%nat) ∧
     (∀ out gp gq,
        lower (path_suffix p) = ".b3dm"%string →
        out = path_join OUT_DIR (path_stem p ++ ".glb") →
        extract_b3dm_to_glb_bytes s dp = Ok gp →
        extract_b3dm_to_glb_bytes s dq = Ok gq →
        ∃ st', walk = Done st' ∧
               destination p = Some out ∧
               log st' = log st ++ [Extracted p out gp; Extracted q out gq] ∧
               files st' !! out = Some gq ∧
               extracted st' = (extracted st + 2)%nat)).
Proof.
  split_and!.
  - intros tileset_paths disk. apply main_destination.
    by intros ev ?%elem_of_nil.
  - apply destination_by_name.
  - apply twin_walk.
Qed.

End walker.

(** ** Tiles that always intersect *)

Section always_intersecting.
Context {num : Type} `{Env num}.

(** C9. A bounding volume without a region, and one whose region is
    empty, leave the flag true: the tile is walked exactly like the same
    tile without a bounding volume, and under every target box its
    content is processed: an asset it refers to is copied, the payload of
    a container is extracted (or the parser's refusal logged), and then
    the children are walked. *)
Theorem C9_volume_without_region (s : script) (c : option content_ref)
  (cs : list (tile num)) (base_path : path) (st : state) :
  tile_intersects s (Tile (Some (BoundingVolume None)) c cs) = Ok true ∧
  tile_intersects s (Tile (Some (BoundingVolume (Some []))) c cs) = Ok true ∧
  process_tile s (Tile (Some (BoundingVolume None)) c cs) base_path st
  = process_tile s (Tile None c cs) base_path st ∧
  process_tile s (Tile (Some (BoundingVolume (Some []))) c cs) base_path st
  = process_tile s (Tile None c cs) base_path st ∧
  (∀ bv box ref u data,
     bv = BoundingVolume None ∨ bv = BoundingVolume (Some []) →
     c = Some ref → py_or (uri ref) (url ref) = Some u → u ≠ ""%string →
     files st !! resolve base_path u = Some data →
     resolve base_path u ∉ processed_files st →
     let p := resolve base_path u in
     let walk :=
       @process_tile num (with_target_bbox _ box) s (Tile (Some bv) c cs)
                     base_path st in
     let rest :=
       for_each (λ child, @process_tile num (with_target_bbox _ box) s child
                                        base_path) cs in
     (lower (path_suffix p) ∈ [".glb"; ".gltf"]%string →
      p ≠ path_join OUT_DIR (path_name p) →
      walk = rest (after_copy p data st)) ∧
     (lower (path_suffix p) = ".b3dm"%string →
      ∀ glb, extract_b3dm_to_glb_bytes s data = Ok glb →
             walk = rest (after_extraction p glb st)) ∧
     (lower (path_suffix p) = ".b3dm"%string →
      ∀ e, extract_b3dm_to_glb_bytes s data = Raise e →
           walk = rest (after_failure p e st))).
Proof.
  split_and!; try by destruct s.
  intros bv box ref u data Hbv Hc Hu Hne Hd Hp.
  apply (flagged_tile_is_processed (H := with_target_bbox _ box)
           s (Some bv) c cs base_path st ref u data); try done.
  by destruct Hbv as [-> | ->], s.
Qed.

(** C7. A tile without a bounding volume has the flag true under every
    target box, so that its visit is the processing of its content; the
    walk of the tile is the walk of the same tile with a region that
    intersects; a content reference that resolves to an existing file is
    handed to the file step; and under every target box that step does
    its work: an asset is copied, the payload of a container is
    extracted (or the parser's refusal logged), and then the children
    are walked. *)
Theorem C7_no_bounding_volume (s : script) (c : option content_ref)
  (cs : list (tile num)) (base_path : path) (st : state) :
  (∀ box,
     @tile_intersects num (with_target_bbox _ box) s (Tile None c cs) = Ok true ∧
     @visit num (with_target_bbox _ box) s base_path (Tile None c cs) st
     = process_content s true c base_path st) ∧
  (∀ region,
     region ≠ [] → bbox_intersect s region TARGET_BBOX = Ok true →
     process_tile s (Tile None c cs) base_path st
     = process_tile s (Tile (Some (BoundingVolume (Some region))) c cs)
                    base_path st) ∧
  (∀ ref u,
     c = Some ref → py_or (uri ref) (url ref) = Some u → u ≠ ""%string →
     is_Some (files st !! resolve base_path u) →
     process_tile s (Tile None c cs) base_path st
     = and_then (process_existing s (resolve base_path u) st)
                (for_each (λ child, process_tile s child base_path) cs)) ∧
  (∀ box ref u data,
     c = Some ref → py_or (uri ref) (url ref) = Some u → u ≠ ""%string →
     files st !! resolve base_path u = Some data →
     resolve base_path u ∉ processed_files st →
     let p := resolve base_path u in
     let walk :=
       @process_tile num (with_target_bbox _ box) s (Tile None c cs)
                     base_path st in
     let rest :=
       for_each (λ child, @process_tile num (with_target_bbox _ box) s child
                                        base_path) cs in
     (lower (path_suffix p) ∈ [".glb"; ".gltf"]%string →
      p ≠ path_join OUT_DIR (path_name p) →
      walk = rest (after_copy p data st)) ∧
     (lower (path_suffix p) = ".b3dm"%string →
      ∀ glb, extract_b3dm_to_glb_bytes s data = Ok glb →
             walk = rest (after_extraction p glb st)) ∧
     (lower (path_suffix p) = ".b3dm"%string →
      ∀ e, extract_b3dm_to_glb_bytes s data = Raise e →
           walk = rest (after_failure p e st))).
Proof.
  split_and!.
  - intros box. by destruct s.
  - intros [|x region] Hne Hi; [done|]. rewrite !process_tile_unfold.
    unfold visit. destruct s; simpl in *.
    + change (extract_shibuya_scramble.tile_intersects _)
        with (extract_shibuya_scramble.bbox_intersect (x :: region) TARGET_BBOX).
      by rewrite Hi.
    + change (extract_b3dm_to_glb.tile_intersects _)
        with (extract_b3dm_to_glb.bbox_intersect (x :: region) TARGET_BBOX).
      by rewrite Hi.
  - intros ref u -> Hu Hne Hex. rewrite process_tile_unfold. f_equal.
    by apply visit_existing.
  - intros box ref u data Hc Hu Hne Hd Hp.
    apply (flagged_tile_is_processed (H := with_target_bbox _ box)
             s None c cs base_path st ref u data); try done.
    by destruct s.
Qed.

End always_intersecting.

(** ** The walk of the specification's scenario *)

Example sample_walk (s : script) :
  ∃ st, process_tile s sample_root ["data"%string] (initial sample_disk) = Done st ∧
        extracted st = 1%nat ∧
        log st = [Extracted ["data"; "a.b3dm"]%string
                    ["kaggle"; "working"; "output_glb"; "a.glb"]%string
                    [x67; x6c; x54; x46]] ∧
        files st !! (["kaggle"; "working"; "output_glb"; "a.glb"]%string)
        = Some [x67; x6c; x54; x46] ∧
        files st !! (["kaggle"; "working"; "output_glb"; "b.glb"]%string) = None.
Proof.
  destruct s; eexists; (split; [vm_compute; reflexivity|]); by vm_compute.
Qed.

Lemma C3_every_node_is_visited_witness :
  visit ExtractB3dmToGlb ["data"%string] far_tile (initial sample_disk)
  = Done (initial sample_disk).
Proof.
  apply (C3_every_node_is_visited ExtractB3dmToGlb far_tile
           ["data"%string] (initial sample_disk)).
  vm_compute. reflexivity.
Defined.

Lemma C7_no_bounding_volume_witness :
  process_tile (num := float) ExtractShibuyaScramble
    (Tile None (content near_tile) []) ["data"%string] (initial sample_disk)
  = process_tile ExtractShibuyaScramble near_tile
      ["data"%string] (initial sample_disk) ∧
  @process_tile float (with_target_bbox kaggle_env (0, 0, 1, 1)%float)
    ExtractShibuyaScramble
    (Tile None (Some (Content (Some "b.glb"%string) None)) [])
    ["data"%string] (initial sample_disk)
  = Done (after_copy ["data"; "b.glb"]%string [x67; x6c; x54; x46; x02]
            (initial sample_disk)) ∧
  files (after_copy (num := float) ["data"; "b.glb"]%string
           [x67; x6c; x54; x46; x02] (initial sample_disk))
    !! (["kaggle"; "working"; "output_glb"; "b.glb"]%string)
  = Some [x67; x6c; x54; x46; x02].
Proof.
  split; [|split].
  - destruct (C7_no_bounding_volume (num := float)
                ExtractShibuyaScramble (content near_tile) []
                ["data"%string] (initial sample_disk)) as (_ & Hregion & _).
    apply (Hregion [139.70; 35.65; 139.71; 35.66; 0; 100]%float).
    + discriminate.
    + vm_compute. reflexivity.
  - destruct (C7_no_bounding_volume (num := float) ExtractShibuyaScramble
                (Some (Content (Some "b.glb"%string) None)) []
                ["data"%string] (initial sample_disk)) as (_ & _ & _ & Hfile).
    destruct (Hfile (0, 0, 1, 1)%float (Content (Some "b.glb"%string) None)
                "b.glb"%string [x67; x6c; x54; x46; x02])
      as (Hcopy & _ & _).
    + reflexivity.
    + reflexivity.
    + discriminate.
    + vm_compute. reflexivity.
    + simpl. apply not_elem_of_empty.
    + apply Hcopy.
      * vm_compute. apply list_elem_of_here.
      * vm_compute. discriminate.
  - vm_compute. reflexivity.
Defined.

Lemma C9_volume_without_region_witness :
  @process_tile float (with_target_bbox kaggle_env (0, 0, 1, 1)%float)
    ExtractB3dmToGlb
    (Tile (Some (BoundingVolume (Some [])))
          (Some (Content (Some "a.b3dm"%string) None)) [])
    ["data"%string] (initial sample_disk)
  = Done (after_extraction ["data"; "a.b3dm"]%string [x67; x6c; x54; x46]
            (initial sample_disk)) ∧
  files (after_extraction (num := float) ["data"; "a.b3dm"]%string
           [x67; x6c; x54; x46] (initial sample_disk))
    !! (["kaggle"; "working"; "output_glb"; "a.glb"]%string)
  = Some [x67; x6c; x54; x46].
Proof.
  split.
  - destruct (C9_volume_without_region (num := float) ExtractB3dmToGlb
                (Some (Content (Some "a.b3dm"%string) None)) []
                ["data"%string] (initial sample_disk))
      as (_ & _ & _ & _ & Hfile).
    destruct (Hfile (BoundingVolume (Some [])) (0, 0, 1, 1)%float
                (Content (Some "a.b3dm"%string) None) "a.b3dm"%string
                (b3dm_magic ++ [x01; x00; x00; x00] ++ [x20; x00; x00; x00]
                 ++ replicate 16 x00 ++ [x67; x6c; x54; x46]))
      as (_ & Hextract & _).
    + right. reflexivity.
    + reflexivity.
    + reflexivity.
    + discriminate.
    + vm_compute. reflexivity.
    + simpl. apply not_elem_of_empty.
    + apply Hextract; vm_compute; reflexivity.
  - vm_compute. reflexivity.
Defined.

Lemma C4_each_path_at_most_once_witness :
  ["data"; "a.b3dm"]%string
  ∈ processed_files
      (final (process_existing (num := float) ExtractB3dmToGlb
                ["data"; "a.b3dm"]%string
                (initial sample_disk))).
Proof.
  destruct (C4_each_path_at_most_once ExtractB3dmToGlb
              [(["data"%string], Some (Tileset (Some sample_root) None))]
              sample_disk) as (_ & _ & _ & Hprocessed).
  apply Hprocessed. vm_compute. eexists. reflexivity.
Defined.

Lemma C10_same_name_same_destination_witness :
  ∃ st, process_tile ExtractB3dmToGlb twin_root ["data"%string]
          (initial twin_disk) = Done st ∧
        files st !! (["kaggle"; "working"; "output_glb"; "m.glb"]%string)
        = Some [x02] ∧
        extracted st = 2%nat.
Proof.
  destruct (C10_same_name_same_destination (num := float) ExtractB3dmToGlb)
    as (_ & _ & Htwin).
  destruct (Htwin
              ["data"; "x"; "m.glb"]%string ["data"; "y"; "m.glb"]%string
              "x/m.glb"%string "y/m.glb"%string ["data"%string]
              (initial twin_disk) [x01] [x02])
    as (Hcopy & _).
  - reflexivity.
  - discriminate.
  - discriminate.
  - discriminate.
  - reflexivity.
  - reflexivity.
  - vm_compute. reflexivity.
  - vm_compute. reflexivity.
  - simpl. apply not_elem_of_empty.
  - simpl. apply not_elem_of_empty.
  - destruct (Hcopy ["kaggle"; "working"; "output_glb"; "m.glb"]%string)
      as (st & Hwalk & _ & _ & Hfile & Hcount).
    + vm_compute. apply list_elem_of_here.
    + reflexivity.
    + discriminate.
    + discriminate.
    + exists st. split; [exact Hwalk|]. split; [exact Hfile | exact Hcount].
Defined.

(** * Further properties of the code *)

(** ** The container parser: failures *)

(** X1. A buffer of fewer than 28 bytes is rejected as too small by each
    of the three copies of the parser, whatever it holds. *)
Theorem X1_short_buffer_is_too_small (p : parser) (data : bytes) :
  len data < 28 → parse p data = Raise (ValueError TooSmall).
Proof. apply parse_too_small. Qed.

Lemma X1_short_buffer_is_too_small_witness :
  parse G2hParser b3dm_magic = Raise (ValueError TooSmall).
Proof.
  apply (X1_short_buffer_is_too_small G2hParser b3dm_magic).
  vm_compute. reflexivity.
Defined.

(** X2. A buffer of at least 28 bytes whose first four bytes are not
    exactly [b3dm] is rejected for its magic by each copy; the lenient
    decoding of the four bytes never lets another buffer pass. *)
Theorem X2_wrong_magic_is_rejected (p : parser) (data : bytes) :
  28 <= len data → slice data 0 4 ≠ b3dm_magic →
  parse p data = Raise (ValueError BadMagic).
Proof. apply parse_bad_magic. Qed.

Lemma X2_wrong_magic_is_rejected_witness :
  parse (ScriptParser ExtractB3dmToGlb)
        ([xff; x62; x33; x64; x6d] ++ replicate 27 x00)
  = Raise (ValueError BadMagic).
Proof.
  apply (X2_wrong_magic_is_rejected (ScriptParser ExtractB3dmToGlb)).
  - vm_compute. discriminate.
  - vm_compute. discriminate.
Defined.

(** X3. The parsers fail in no other way: a copy in a script raises only
    for a short buffer or a wrong magic, the copy in [g2h.py] also for an
    offset beyond the buffer; reading the header fields never fails. *)
Theorem X3_only_these_failures (p : parser) (data : bytes) (e : exn) :
  parse p data = Raise e →
  e = ValueError TooSmall ∨ e = ValueError BadMagic ∨
  (p = G2hParser ∧ e = ValueError OffsetOutOfRange).
Proof.
  intros He.
  destruct (N.lt_ge_cases (len data) 28) as [Hl|Hl].
  { rewrite parse_too_small in He by done. left. congruence. }
  destruct (decide (slice data 0 4 = b3dm_magic)) as [Hm|Hm].
  2:{ rewrite parse_bad_magic in He by done. right; left. congruence. }
  destruct p as [s|]; simpl in He.
  - destruct (script_parser_accepts s data Hl Hm)
      as (bl & f1 & f2 & f3 & f4 & _ & _ & _ & _ & _ & Hp).
    simpl in Hp. congruence.
  - destruct (g2h_parser_accepts data Hl Hm)
      as (bl & f1 & f2 & f3 & f4 & _ & _ & _ & _ & _ & Hp).
    simpl in Hp. rewrite Hp in He.
    destruct (len data <=? _); [|done]. right; right. split; congruence.
Qed.

Lemma X3_only_these_failures_witness :
  ValueError OffsetOutOfRange = ValueError TooSmall ∨
  ValueError OffsetOutOfRange = ValueError BadMagic ∨
  (G2hParser = G2hParser ∧
   ValueError OffsetOutOfRange = ValueError OffsetOutOfRange).
Proof.
  apply (X3_only_these_failures G2hParser header_only).
  vm_compute. reflexivity.
Defined.

(** ** The container parser: the copies *)

(** X4. [extract_b3dm_to_glb_bytes] of [extract_b3dm_to_glb.py] and of
    [extract_shibuya_scramble.py] return the same result on every
    buffer, although they read the header fields in different orders. *)
Theorem X4_script_copies_agree (data : bytes) :
  extract_b3dm_to_glb.extract_b3dm_to_glb_bytes data
  = extract_shibuya_scramble.extract_b3dm_to_glb_bytes data.
Proof. symmetry. apply script_parsers_agree. Qed.

(** X5. Any two of the three copies return the same result on a buffer
    that passes the length and magic tests, whose payload offset lies
    inside the buffer, and whose declared length is beyond the offset or
    beyond the buffer. *)
Theorem X5_copies_agree_on_consistent_headers (p q : parser) (data : bytes)
  (byteLength ftJsonLen ftBinLen btJsonLen btBinLen : N) :
  28 <= len data →
  slice data 0 4 = b3dm_magic →
  unpack_from_I data 8 = Ok byteLength →
  unpack_from_I data 12 = Ok ftJsonLen →
  unpack_from_I data 16 = Ok ftBinLen →
  unpack_from_I data 20 = Ok btJsonLen →
  unpack_from_I data 24 = Ok btBinLen →
  28 + ftJsonLen + ftBinLen + btJsonLen + btBinLen < len data →
  28 + ftJsonLen + ftBinLen + btJsonLen + btBinLen < byteLength
  ∨ len data < byteLength →
  parse p data = parse q data.
Proof.
  intros Hl Hm Hbl H1 H2 H3 H4 Ho Hb.
  destruct (parsers_agree_on_consistent_headers p q data Hl Hm)
    as (bl' & f1' & f2' & f3' & f4' & Hbl' & H1' & H2' & H3' & H4' & Hagree).
  assert (bl' = byteLength ∧ f1' = ftJsonLen ∧ f2' = ftBinLen
          ∧ f3' = btJsonLen ∧ f4' = btBinLen)
    as (-> & -> & -> & -> & ->) by (repeat split; congruence).
  by apply Hagree.
Qed.

Lemma X5_copies_agree_on_consistent_headers_witness :
  parse G2hParser scenario_container
  = parse (ScriptParser ExtractShibuyaScramble) scenario_container.
Proof.
  apply (X5_copies_agree_on_consistent_headers _ _ scenario_container
           100 20 0 0 0);
    try reflexivity.
  - vm_compute. discriminate.
  - left. vm_compute. reflexivity.
Defined.

(** ** The container parser: the payload *)

Lemma slice_app_l (pre post : bytes) (a b : N) :
  b <= len pre → slice (pre ++ post) a b = slice pre a b.
Proof.
  intros Hb. rewrite !slice_take_drop. unfold len in Hb.
  destruct (N.le_gt_cases a (len pre)) as [Ha|Ha]; unfold len in Ha.
  - rewrite drop_app_le by lia. apply take_app_le. rewrite length_drop. lia.
  - by replace (N.to_nat (b - a)) with 0%nat by lia.
Qed.

Lemma unpack_from_I_app (pre post : bytes) (offset : N) :
  offset + 4 <= len pre →
  unpack_from_I (pre ++ post) offset = unpack_from_I pre offset.
Proof. intros Ho. unfold unpack_from_I. by rewrite slice_app_l. Qed.

Lemma slice_app_r (pre glb : bytes) (e : N) :
  len pre + len glb <= e → slice (pre ++ glb) (len pre) e = glb.
Proof.
  intros He. rewrite slice_take_drop. unfold len in *.
  rewrite Nat2N.id, drop_app_length. apply take_ge. lia.
Qed.

Lemma len_app (l k : bytes) : len (l ++ k) = len l + len k.
Proof. unfold len. rewrite length_app. lia. Qed.

(** X6. When a tile file is a header with its tables followed by a
    payload, the tables end where the header fields say, and the
    declared length is the length of the file (or larger), then each of
    the three copies returns the payload, byte for byte. *)
Theorem X6_payload_is_returned_verbatim (p : parser) (pre glb : bytes)
  (byteLength ftJsonLen ftBinLen btJsonLen btBinLen : N) :
  28 <= len pre →
  slice pre 0 4 = b3dm_magic →
  unpack_from_I pre 8 = Ok byteLength →
  unpack_from_I pre 12 = Ok ftJsonLen →
  unpack_from_I pre 16 = Ok ftBinLen →
  unpack_from_I pre 20 = Ok btJsonLen →
  unpack_from_I pre 24 = Ok btBinLen →
  28 + ftJsonLen + ftBinLen + btJsonLen + btBinLen = len pre →
  glb ≠ [] →
  len pre + len glb <= byteLength →
  parse p (pre ++ glb) = Ok glb.
Proof.
  intros Hl Hm Hbl H1 H2 H3 H4 Ho Hglb Hb.
  assert (Hpos : 0 < len glb).
  { destruct glb; [done|]. unfold len. simpl. lia. }
  assert (Hl' : 28 <= len (pre ++ glb)) by (rewrite len_app; lia).
  assert (Hm' : slice (pre ++ glb) 0 4 = b3dm_magic)
    by (rewrite slice_app_l by lia; done).
  assert (Hfields : ∀ bl f1 f2 f3 f4,
    unpack_from_I (pre ++ glb) 8 = Ok bl →
    unpack_from_I (pre ++ glb) 12 = Ok f1 →
    unpack_from_I (pre ++ glb) 16 = Ok f2 →
    unpack_from_I (pre ++ glb) 20 = Ok f3 →
    unpack_from_I (pre ++ glb) 24 = Ok f4 →
    bl = byteLength ∧ 28 + f1 + f2 + f3 + f4 = len pre).
  { intros bl f1 f2 f3 f4. rewrite !unpack_from_I_app by lia.
    intros. split; [congruence|].
    replace f1 with ftJsonLen by congruence.
    replace f2 with ftBinLen by congruence.
    replace f3 with btJsonLen by congruence.
    replace f4 with btBinLen by congruence. done. }
  destruct p as [s|]; simpl.
  - destruct (script_parser_accepts s _ Hl' Hm')
      as (bl & f1 & f2 & f3 & f4 & Hbl' & H1' & H2' & H3' & H4' & Hp).
    destruct (Hfields _ _ _ _ _ Hbl' H1' H2' H3' H4') as [-> Hoff].
    simpl in Hp. rewrite Hp, Hoff. f_equal. apply slice_app_r.
    unfold script_end. rewrite len_app.
    destruct (N.leb_spec byteLength (len pre + len glb)),
             (N.ltb_spec (len pre) byteLength); simpl; lia.
  - destruct (g2h_parser_accepts _ Hl' Hm')
      as (bl & f1 & f2 & f3 & f4 & Hbl' & H1' & H2' & H3' & H4' & Hp).
    destruct (Hfields _ _ _ _ _ Hbl' H1' H2' H3' H4') as [-> Hoff].
    simpl in Hp. rewrite Hp, Hoff, len_app.
    destruct (N.leb_spec (len pre + len glb) (len pre)); [lia|].
    f_equal. apply slice_app_r.
    destruct (N.leb_spec byteLength (len pre + len glb)); lia.
Qed.

Lemma X6_payload_is_returned_verbatim_witness :
  parse G2hParser (take 48 scenario_container ++ replicate 52 x67)
  = Ok (replicate 52 x67).
Proof.
  apply (X6_payload_is_returned_verbatim G2hParser
           (take 48 scenario_container) (replicate 52 x67) 100 20 0 0 0);
    try reflexivity; vm_compute; discriminate.
Defined.

Lemma slice_nil_iff (data : bytes) (a b : N) :
  slice data a b = [] ↔ N.min b (len data) <= a.
Proof.
  rewrite <- length_zero_iff_nil.
  pose proof (len_slice data a b) as Hl. unfold len in *. lia.
Qed.

(** X7. On a buffer that passes the length and magic tests, a script's
    copy returns an empty payload exactly when the payload offset is at
    or beyond the end of the buffer; the copy in [g2h.py] returns one
    exactly when the offset is inside the buffer and the declared length
    is not beyond the offset. *)
Theorem X7_when_the_payload_is_empty (data : bytes)
  (byteLength ftJsonLen ftBinLen btJsonLen btBinLen : N) :
  28 <= len data →
  slice data 0 4 = b3dm_magic →
  unpack_from_I data 8 = Ok byteLength →
  unpack_from_I data 12 = Ok ftJsonLen →
  unpack_from_I data 16 = Ok ftBinLen →
  unpack_from_I data 20 = Ok btJsonLen →
  unpack_from_I data 24 = Ok btBinLen →
  let glb_offset := 28 + ftJsonLen + ftBinLen + btJsonLen + btBinLen in
  (∀ s, extract_b3dm_to_glb_bytes s data = Ok [] ↔ len data <= glb_offset) ∧
  (g2h.extract_b3dm_glb_data data = Ok []
   ↔ glb_offset < len data ∧ byteLength <= glb_offset).
Proof.
  intros Hl Hm Hbl H1 H2 H3 H4 o. split.
  - intros s.
    destruct (script_parser_accepts s data Hl Hm)
      as (bl' & f1' & f2' & f3' & f4' & Hbl' & H1' & H2' & H3' & H4' & Hp).
    assert (bl' = byteLength ∧ f1' = ftJsonLen ∧ f2' = ftBinLen
            ∧ f3' = btJsonLen ∧ f4' = btBinLen)
      as (-> & -> & -> & -> & ->) by (repeat split; congruence).
    simpl in Hp. fold o in Hp. rewrite Hp.
    assert (Hnil : slice data o (script_end data byteLength o) = []
                   ↔ len data <= o).
    { rewrite slice_nil_iff. unfold script_end.
      destruct (N.leb_spec byteLength (len data)), (N.ltb_spec o byteLength);
        simpl; lia. }
    rewrite <- Hnil. split; [congruence | by intros ->].
  - destruct (g2h_parser_accepts data Hl Hm)
      as (bl' & f1' & f2' & f3' & f4' & Hbl' & H1' & H2' & H3' & H4' & Hp).
    assert (bl' = byteLength ∧ f1' = ftJsonLen ∧ f2' = ftBinLen
            ∧ f3' = btJsonLen ∧ f4' = btBinLen)
      as (-> & -> & -> & -> & ->) by (repeat split; congruence).
    simpl in Hp. fold o in Hp. rewrite Hp.
    destruct (N.leb_spec (len data) o) as [Ho|Ho].
    { split; [done | lia]. }
    assert (Hnil : slice data o (if byteLength <=? len data
                                 then byteLength else len data) = []
                   ↔ byteLength <= o).
    { rewrite slice_nil_iff.
      destruct (N.leb_spec byteLength (len data)); lia. }
    split.
    + intros [= He]. apply Hnil in He. lia.
    + intros [_ Hb]. f_equal. by apply Hnil.
Qed.

Lemma X7_when_the_payload_is_empty_witness :
  g2h.extract_b3dm_glb_data undeclared_length = Ok [].
Proof.
  apply (X7_when_the_payload_is_empty undeclared_length 0 0 0 0 0);
    try reflexivity.
  - vm_compute. discriminate.
  - split; vm_compute; [reflexivity | discriminate].
Defined.

(** ** The walker: the two copies *)

Section more_about_the_walker.
Context {num : Type} `{Env num}.


(** ** The walker: what a run leaves alone *)

Lemma process_existing_elsewhere (s : script) (p q : path) (st : state) :
  (∀ name, q ≠ path_join OUT_DIR name) →
  files (final (process_existing s p st)) !! q = files st !! q.
Proof.
  intros Hq.
  assert (Hs : process_existing s p st
               = extract_shibuya_scramble.process_existing p st)
    by (destruct s; [done | apply process_existing_same]).
  rewrite Hs. unfold extract_shibuya_scramble.process_existing.
  destruct (String.eqb _ _).
  - case_decide; [done|]. simpl.
    unfold extract_shibuya_scramble.extract_file.
    destruct (_ ≫= _); simpl; [|done]. by rewrite lookup_insert_ne.
  - case_bool_decide; [|done]. case_decide; [done|].
    unfold extract_shibuya_scramble.copy_file, copy2. simpl.
    case_decide; [done|]. destruct (files st !! p); simpl; [|done].
    by rewrite lookup_insert_ne.
Qed.

Lemma visit_elsewhere (s : script) (base_path : path) (t : tile num)
  (q : path) (st : state) :
  (∀ name, q ≠ path_join OUT_DIR name) →
  files (final (visit s base_path t st)) !! q = files st !! q.
Proof.
  intros Hq. unfold visit.
  destruct (tile_intersects s t) as [b|e]; [|done].
  assert (Hs : process_content s b (content t) base_path st
               = extract_b3dm_to_glb.process_content b (content t) base_path st)
    by (destruct s; [symmetry; apply process_content_same | done]).
  rewrite Hs. unfold extract_b3dm_to_glb.process_content.
  destruct (content t) as [ref|]; [|done]. destruct b; [|done].
  destruct (py_or _ _) as [u|]; [|done]. destruct (truthy _); [|done].
  case_bool_decide; [|done].
  by apply (process_existing_elsewhere ExtractB3dmToGlb).
Qed.

(** X10. A run changes no file outside the output directory: a path
    that is not a name directly under [OUT_DIR] holds after the run,
    finished or not, what it held before. *)
Theorem X10_only_the_output_directory_is_written (s : script)
  (tileset_paths : list (manifest num)) (st : state) (q : path) :
  (∀ name, q ≠ path_join OUT_DIR name) →
  files (final (main s tileset_paths st)) !! q = files st !! q.
Proof.
  intros Hq.
  assert (Htile : ∀ (t : tile num) base_path st',
    files st' !! q = files st !! q →
    files (final (process_tile ExtractB3dmToGlb t base_path st')) !! q
    = files st !! q).
  { intros t base_path st'. rewrite process_tile_preorder.
    apply (for_each_preserves (λ st', files st' !! q = files st !! q)).
    intros t' st'' <-. by apply visit_elsewhere. }
  assert (Hs : main s tileset_paths st
               = extract_b3dm_to_glb.main tileset_paths st)
    by (destruct s; [symmetry; apply main_same | done]).
  rewrite Hs.
  apply (for_each_preserves (λ st', files st' !! q = files st !! q)); [|done].
  intros [parent [[r ts]|]] st' Hst'; [|done]. simpl.
  destruct r as [r|]; [by apply (Htile r)|].
  apply (for_each_preserves (λ st', files st' !! q = files st !! q)); [|done].
  intros t st'' ?. by apply (Htile t).
Qed.

End more_about_the_walker.

Lemma X10_only_the_output_directory_is_written_witness :
  files (final (main ExtractB3dmToGlb
                  [(["data"%string], Some (Tileset (Some sample_root) None))]
                  (initial sample_disk)))
    !! (["data"; "a.b3dm"]%string)
  = sample_disk !! (["data"; "a.b3dm"]%string).
Proof.
  apply (X10_only_the_output_directory_is_written (num := float)
           ExtractB3dmToGlb
           [(["data"%string], Some (Tileset (Some sample_root) None))]
           (initial sample_disk) ["data"; "a.b3dm"]%string).
  intros name. vm_compute. discriminate.
Defined.

Section more_about_a_run.
Context {num : Type} `{Env num}.

(** ** The walker: a run only adds *)

Lemma grows_refl (st : state) : grows st st.
Proof. by split_and!. Qed.

Lemma grows_trans (st1 st2 st3 : state) :
  grows st1 st2 → grows st2 st3 → grows st1 st3.
Proof.
  intros (Hp & He & Hl & Hd) (Hp' & He' & Hl' & Hd'). split_and!.
  - set_solver.
  - lia.
  - by etrans.
  - set_solver.
Qed.

Lemma process_existing_grows (s : script) (p : path) (st : state) :
  grows st (final (process_existing s p st)).
Proof.
  assert (Hs : process_existing s p st
               = extract_shibuya_scramble.process_existing p st)
    by (destruct s; [done | apply process_existing_same]).
  rewrite Hs. unfold extract_shibuya_scramble.process_existing.
  destruct (String.eqb _ _).
  - case_decide; [apply grows_refl|]. simpl.
    unfold extract_shibuya_scramble.extract_file.
    destruct (_ ≫= _); simpl; split_and!; simpl;
      rewrite ?dom_insert_L; try set_solver; try lia; by apply prefix_app_r.
  - case_bool_decide; [|apply grows_refl].
    case_decide; [apply grows_refl|].
    unfold extract_shibuya_scramble.copy_file, copy2. simpl.
    case_decide; simpl; [split_and!; simpl; set_solver by lia|].
    destruct (files st !! p); simpl; split_and!; simpl;
      rewrite ?dom_insert_L; try set_solver; try lia; by apply prefix_app_r.
Qed.

Lemma visit_grows (s : script) (base_path : path) (t : tile num) st :
  grows st (final (visit s base_path t st)).
Proof.
  unfold visit.
  destruct (tile_intersects s t) as [b|e]; [|apply grows_refl].
  assert (Hs : process_content s b (content t) base_path st
               = extract_b3dm_to_glb.process_content b (content t) base_path st)
    by (destruct s; [symmetry; apply process_content_same | done]).
  rewrite Hs. unfold extract_b3dm_to_glb.process_content.
  destruct (content t) as [ref|]; [|apply grows_refl].
  destruct b; [|apply grows_refl].
  destruct (py_or _ _) as [u|]; [|apply grows_refl].
  destruct (truthy _); [|apply grows_refl].
  case_bool_decide; [|apply grows_refl].
  apply (process_existing_grows ExtractB3dmToGlb).
Qed.

(** X11. A run takes nothing back: from any state on, the processed set
    only gains paths, the count only rises, the log is only extended,
    and every file that exists still exists in the end, whether the run
    finishes or not. *)
Theorem X11_a_run_only_adds (s : script) (tileset_paths : list (manifest num))
  (st : state) :
  let st' := final (main s tileset_paths st) in
  processed_files st ⊆ processed_files st' ∧
  (extracted st ≤ extracted st')%nat ∧
  log st `prefix_of` log st' ∧
  dom (files st) ⊆ dom (files st').
Proof.
  assert (Htile : ∀ (t : tile num) base_path st',
    grows st st' →
    grows st (final (process_tile ExtractB3dmToGlb t base_path st'))).
  { intros t base_path st'. rewrite process_tile_preorder.
    apply (for_each_preserves (grows st)).
    intros t' st'' Hg. eapply grows_trans; [exact Hg | apply visit_grows]. }
  assert (Hs : main s tileset_paths st
               = extract_b3dm_to_glb.main tileset_paths st)
    by (destruct s; [symmetry; apply main_same | done]).
  simpl. rewrite Hs. change (grows st (final
    (extract_b3dm_to_glb.main tileset_paths st))).
  apply (for_each_preserves (grows st)); [|apply grows_refl].
  intros [parent [[r ts]|]] st' Hst'; [|done]. simpl.
  destruct r as [r|]; [by apply (Htile r)|].
  apply (for_each_preserves (grows st)); [|done].
  intros t st'' ?. by apply (Htile t).
Qed.

(** X12. At the end of a run the count of extracted and copied files is
    at most the number of paths in the processed set. *)
Theorem X12_count_is_bounded_by_processed (s : script)
  (tileset_paths : list (manifest num)) (disk : file_system) :
  let st := final (main s tileset_paths (initial disk)) in
  (extracted st ≤ size (processed_files st))%nat.
Proof.
  assert (Hinit : each_source_once (initial disk)).
  { split; [apply NoDup_nil_2|]. split; [|done]. by intros ev ?%elem_of_nil. }
  destruct (main_once s tileset_paths _ Hinit) as (Hnd & Hin & Hcount).
  simpl. rewrite Hcount.
  etrans; [apply List.filter_length_le|].
  rewrite <- (length_fmap source), <- (size_list_to_set (C := gset path)) by done.
  apply subseteq_size. intros p (ev & -> & Hev)%elem_of_list_to_set%list_elem_of_fmap.
  auto.
Qed.

(** X13. A manifest that could not be parsed, one with neither a root
    nor tiles, and one with an empty list of tiles leave a run as it is:
    the run with such a manifest among the others is the run without
    it. *)
Theorem X13_idle_manifests (s : script) (before after : list (manifest num))
  (parent : path) (js : option (tileset num)) (st : state) :
  js = None ∨ js = Some (Tileset None None) ∨ js = Some (Tileset None (Some [])) →
  main s (before ++ (parent, js) :: after) st = main s (before ++ after) st.
Proof.
  intros Hjs.
  assert (Hs : ∀ l, main s l st = extract_b3dm_to_glb.main l st)
    by (intros l; destruct s; [symmetry; apply main_same | done]).
  rewrite !Hs. unfold extract_b3dm_to_glb.main. rewrite !for_each_app.
  match goal with |- and_then ?o _ = _ => destruct o as [st1|] end;
    simpl; [|done].
  by destruct Hjs as [-> | [-> | ->]].
Qed.

(** ** The walker: one tile *)


(** X15. A path that is already in the processed set, and a file that is
    neither a container nor an asset, are left as they are (the latter
    is not even marked as processed); and handling a path a second time
    changes nothing. *)
Theorem X15_processing_again_changes_nothing (s : script) (p : path)
  (st st1 : state) :
  (p ∈ processed_files st ∨ destination p = None →
   process_existing s p st = Done st) ∧
  (process_existing s p st = Done st1 → process_existing s p st1 = Done st1).
Proof.
  assert (Hs : ∀ st, process_existing s p st
                     = extract_shibuya_scramble.process_existing p st)
    by (intros ?; destruct s; [done | apply process_existing_same]).
  rewrite !Hs. unfold destination, extract_shibuya_scramble.process_existing.
  destruct (String.eqb _ _).
  - split.
    + intros [Hin | ?]; [|done]. by rewrite decide_True.
    + case_decide as Hin.
      * intros [= <-]. by rewrite decide_True.
      * intros [= <-]. rewrite decide_True; [done|].
        unfold extract_shibuya_scramble.extract_file.
        destruct (_ ≫= _); simpl; set_solver.
  - case_bool_decide; [|done]. split.
    + intros [Hin | ?]; [|done]. by rewrite decide_True.
    + case_decide as Hin.
      * intros [= <-]. by rewrite decide_True.
      * unfold extract_shibuya_scramble.copy_file.
        destruct (copy2 _ _ _); [|done]. intros [= <-].
        rewrite decide_True; [done|]. simpl. set_solver.
Qed.

(** X16. [bbox_intersect] raises [IndexError] exactly on the regions
    with fewer than four numbers, whatever the box; and a tile with such
    a region that is not empty ends the walk at once, before its content
    and its children are looked at. *)
Theorem X16_short_region (s : script) (region : list num)
  (box : num * num * num * num) (c : option content_ref)
  (cs : list (tile num)) (base_path : path) (st : state) :
  ((length region < 4)%nat → bbox_intersect s region box = Raise IndexError) ∧
  ((4 ≤ length region)%nat → ∃ b, bbox_intersect s region box = Ok b) ∧
  ((0 < length region < 4)%nat →
   process_tile s (Tile (Some (BoundingVolume (Some region))) c cs)
                base_path st
   = Crash IndexError st).
Proof.
  destruct box as [[[lon_min lat_min] lon_max] lat_max].
  destruct region as [|west [|south [|east [|north heights]]]];
    (split; [|split]); simpl; try lia; intros _.
  all: destruct s; simpl; try reflexivity.
  all: unfold extract_shibuya_scramble.bbox_intersect,
              extract_b3dm_to_glb.bbox_intersect; simpl.
  all: repeat case_match; eauto.
Qed.

End more_about_a_run.

Lemma X13_idle_manifests_witness :
  main (num := float) ExtractShibuyaScramble
    ([] ++ (["other"%string], None)
        :: [(["data"%string], Some (Tileset (Some sample_root) None))])
    (initial sample_disk)
  = main ExtractShibuyaScramble
      ([] ++ [(["data"%string], Some (Tileset (Some sample_root) None))])
      (initial sample_disk).
Proof.
  apply (X13_idle_manifests (num := float) ExtractShibuyaScramble []).
  left. reflexivity.
Defined.


Lemma X15_processing_again_changes_nothing_witness :
  let st1 := final (process_existing (num := float) ExtractB3dmToGlb
                      ["data"; "b.glb"]%string (initial sample_disk)) in
  process_existing (num := float) ExtractB3dmToGlb ["data"; "b.glb"]%string st1
  = Done st1.
Proof.
  intros st1.
  apply (X15_processing_again_changes_nothing (num := float) ExtractB3dmToGlb
           ["data"; "b.glb"]%string (initial sample_disk) st1).
  vm_compute. reflexivity.
Defined.

Lemma X16_short_region_witness :
  process_tile (num := float) ExtractB3dmToGlb
    (Tile (Some (BoundingVolume (Some [139.70; 35.65; 139.71]%float)))
          (content near_tile) [far_tile])
    ["data"%string] (initial sample_disk)
  = Crash IndexError (initial sample_disk).
Proof.
  apply (X16_short_region (num := float) ExtractB3dmToGlb
           [139.70; 35.65; 139.71]%float TARGET_BBOX).
  simpl. lia.
Defined.

(** ** g2h.py: the files that are converted *)

Lemma elem_of_rglob (files : file_system) (root p : path) :
  p ∈ g2h.rglob files root
  ↔ is_Some (files !! p) ∧ root `prefix_of` p ∧ p ≠ root.
Proof.
  unfold g2h.rglob. rewrite list_elem_of_In, List.filter_In, <- list_elem_of_In.
  rewrite bool_decide_eq_true, list_elem_of_fmap. split.
  - intros [([q data] & -> & Hq%elem_of_map_to_list) Hp]. simpl in *.
    by rewrite Hq.
  - intros [[data Hd] Hp]. split; [|done].
    exists (p, data). split; [done|]. by apply elem_of_map_to_list.
Qed.

(** X18. [find_files] returns, each once, exactly the existing files
    whose suffix, put in lower case, is among the extensions: the root
    itself when the root is a file, and otherwise the files below the
    root at any depth. *)
Theorem X18_find_files_finds (files : file_system) (root : path)
  (exts : option (list string)) (p : path) :
  NoDup (g2h.find_files files root exts) ∧
  (p ∈ g2h.find_files files root exts
   ↔ is_Some (files !! p) ∧
     lower (path_suffix p) ∈ default g2h.default_exts exts ∧
     (p = root ∨ (files !! root = None ∧ root `prefix_of` p))).
Proof.
  unfold g2h.find_files. case_bool_decide as Hroot.
  - case_bool_decide as Hsuf; split.
    + apply NoDup_singleton.
    + rewrite list_elem_of_singleton. split.
      * intros ->. eauto.
      * intros (_ & _ & [-> | [Hnone _]]); [done|].
        rewrite Hnone in Hroot. by destruct Hroot.
    + apply NoDup_nil_2.
    + split; [by intros ?%elem_of_nil|].
      intros (_ & Hs & [-> | [Hnone _]]); [done|].
      rewrite Hnone in Hroot. by destruct Hroot.
  - assert (Hnone : files !! root = None).
    { destruct (files !! root) eqn:Hr; [|done]. destruct Hroot. eauto. }
    split.
    + apply NoDup_ListNoDup, List.NoDup_filter. unfold g2h.rglob.
      apply List.NoDup_filter, NoDup_ListNoDup, NoDup_fst_map_to_list.
    + rewrite list_elem_of_In, List.filter_In, <- list_elem_of_In.
      rewrite elem_of_rglob, andb_true_iff, !bool_decide_eq_true. split.
      * intros [(Hp & Hpre & _) [_ Hs]]. eauto 10.
      * intros (Hp & Hs & [-> | [_ Hpre]]).
        { rewrite Hnone in Hp. by destruct Hp. }
        split_and!; try done. intros ->. rewrite Hnone in Hp. by destruct Hp.
Qed.

(** ** g2h.py: the conversion loop *)

Section conversion_loop.
Variable trimesh_export : path → bytes → option bytes.
Variable models_out : path.

Lemma path_suffix_join (d : path) (name : string) :
  path_suffix (path_join d name) = path_suffix [name].
Proof. unfold path_suffix. by rewrite path_name_join. Qed.

Lemma stem_glb_suffix (f d : path) :
  path_suffix f ≠ ""%string →
  path_suffix (path_join d (path_stem f ++ ".glb")) = ".glb"%string.
Proof.
  intros Hf. unfold path_suffix at 1. rewrite path_name_join.
  unfold suffix_index. rewrite rfind_dot_glb, string_length_app.
  assert (Hlen : (0 < String.length (path_stem f))%nat).
  { unfold path_suffix, path_stem in *.
    destruct (suffix_index (path_name f)) as [i|] eqn:Hi; [|done].
    unfold suffix_index in Hi.
    destruct (rfind_dot (path_name f)) as [j|]; [|done].
    destruct (Nat.ltb_spec 0 j); simpl in Hi; [|done].
    destruct (Nat.ltb_spec j (String.length (path_name f) - 1));
      simplify_eq/=.
    destruct i as [|i]; [lia|]. destruct (path_name f); simpl in *; lia. }
  destruct (Nat.ltb_spec 0 (String.length (path_stem f))); [|lia].
  destruct (Nat.ltb_spec (String.length (path_stem f))
              (String.length (path_stem f) + String.length ".glb" - 1));
    simpl in *; [|lia].
  replace (String.length (path_stem f) + 4 - String.length (path_stem f))%nat
    with (String.length ".glb") by (simpl; lia).
  apply substring_after.
Qed.

Lemma converted_well_write (files0 : file_system) (files : file_system)
  (converted : list path) (name : string) (data : bytes) :
  lower (path_suffix [name]) ∈ [".glb"; ".gltf"]%string →
  converted_well models_out files0 (files, converted) →
  converted_well models_out files0
    (<[path_join models_out name := data]> files,
     converted ++ [path_join models_out name]).
Proof.
  intros Hs (Hc & Hq & Hd). split_and!; simpl in *.
  - intros d [Hin | ->%list_elem_of_singleton]%elem_of_app.
    + destruct (Hc d Hin) as (Hex & Hn & Hsuf). split_and!; try done.
      destruct (decide (path_join models_out name = d)) as [->|Hne].
      * rewrite lookup_insert_eq. eauto.
      * by rewrite lookup_insert_ne.
    + rewrite lookup_insert_eq, path_suffix_join. eauto.
  - intros q Hout. rewrite lookup_insert_ne by (by apply not_eq_sym). auto.
  - rewrite dom_insert_L. set_solver.
Qed.

Lemma convert_well (files0 : file_system) (f : path)
  (st : file_system * list path) :
  converted_well models_out files0 st →
  converted_well models_out files0 (g2h.convert trimesh_export models_out f st).
Proof.
  destruct st as [files converted]. intros Hst. unfold g2h.convert.
  case_bool_decide as Hasset.
  - unfold g2h.copy_file, copy2. case_decide; [done|].
    destruct (files !! f); simpl; [|done].
    apply converted_well_write; [|done]. unfold path_suffix in *. simpl.
    done.
  - destruct (String.eqb_spec (lower (path_suffix f)) ".b3dm") as [Hb|Hb].
    + unfold g2h.extract_b3dm_glb.
      destruct (files !! f); simpl; [|done].
      destruct (g2h.extract_b3dm_glb_data _); simpl; [|done].
      apply converted_well_write; [|done].
      rewrite <- (path_suffix_join models_out), stem_glb_suffix.
      * apply list_elem_of_here.
      * intros Hnil. by rewrite Hnil in Hb.
    + case_bool_decide as Hmesh; [|done].
      unfold g2h.convert_mesh_to_glb.
      destruct (files !! f); simpl; [|done].
      destruct (trimesh_export f _); simpl; [|done].
      apply converted_well_write; [|done].
      rewrite <- (path_suffix_join models_out), stem_glb_suffix.
      * apply list_elem_of_here.
      * intros Hnil. rewrite Hnil in Hmesh. simpl in Hmesh.
        repeat (apply elem_of_cons in Hmesh as [?|Hmesh]; [done|]).
        by apply elem_of_nil in Hmesh.
Qed.

Lemma convert_length (f : path) (st : file_system * list path) :
  (length (g2h.convert trimesh_export models_out f st).2 ≤ S (length st.2))%nat.
Proof.
  destruct st as [files converted]. unfold g2h.convert.
  repeat case_match; simpl; rewrite ?length_app; simpl; lia.
Qed.

(** X19. After the conversion loop of [main], every path in [converted]
    is a name directly under [models_out], has the suffix [.glb] or
    [.gltf], and exists on the disk; no file outside [models_out] has
    changed and none has disappeared; and [converted] has at most one
    entry for each file that was found, whatever the mesh library
    does. *)
Theorem X19_conversion_loop (files : file_system) (working_root : path) :
  let result := g2h.convert_all trimesh_export files working_root models_out in
  (∀ d, d ∈ result.2 →
        is_Some (result.1 !! d) ∧
        (∃ name, d = path_join models_out name) ∧
        lower (path_suffix d) ∈ [".glb"; ".gltf"]%string) ∧
  (∀ q, (∀ name, q ≠ path_join models_out name) → result.1 !! q = files !! q) ∧
  dom files ⊆ dom result.1 ∧
  (length result.2
   ≤ length (g2h.find_files files working_root (Some g2h.default_exts)))%nat.
Proof.
  simpl. unfold g2h.convert_all.
  change [".glb"; ".gltf"; ".obj"; ".ply"; ".stl"; ".fbx"; ".b3dm"]%string
    with g2h.default_exts.
  set (found := g2h.find_files files working_root (Some g2h.default_exts)).
  assert (Hgen : ∀ l st,
    converted_well models_out files st →
    converted_well models_out files
      (fold_left (λ st f, g2h.convert trimesh_export models_out f st) l st) ∧
    (length (fold_left (λ st f, g2h.convert trimesh_export models_out f st)
               l st).2
     ≤ length l + length st.2)%nat).
  { induction l as [|f l IH]; intros st Hst; simpl; [split; [done | lia]|].
    destruct (IH _ (convert_well files f st Hst)) as [Hw Hl].
    split; [done|]. pose proof (convert_length f st). lia. }
  destruct (Hgen found (files, [])) as [(Hc & Hq & Hd) Hl].
  { split_and!; simpl; [by intros d ?%elem_of_nil | done | done]. }
  simpl in Hl. split_and!; try done. lia.
Qed.

End conversion_loop.

Lemma X19_conversion_loop_witness :
  let result := g2h.convert_all (λ _ _, None) sample_disk ["data"%string]
                  ["out"; "models"]%string in
  is_Some (result.1 !! (["out"; "models"; "a.glb"]%string)).
Proof.
  intros result.
  apply (X19_conversion_loop (λ _ _, None) ["out"; "models"]%string
           sample_disk ["data"%string]).
  apply list_elem_of_In. vm_compute. tauto.
Defined.
